(** * Simulador de viabilidade de leilao de imoveis: the calculation core

    A shallow embedding of the five calculation stages of
    [simulador_leilao.py] and of the checks the page performs on their
    results.

    Numbers.  Python floats are modelled as real numbers ([R]) with exact
    arithmetic; binary64 rounding is not part of this model.  Month counts
    are Python ints and are modelled as [Z].  The one place where a float
    that is not a number matters (the rate returned by the IRR solver) uses
    the type [numero], which adds [NaN] to the reals.

    The library [numpy_financial] is not part of the repository.  Its three
    functions [pmt], [fv] and [irr] are parameters of the stages that call
    them; a model of [pmt] and [fv] is given separately and only used where
    a statement is about their closed form. *)

From Stdlib Require Import Reals Lra Lia ZArith List Ascii String Bool.
Import ListNotations.

Open Scope R_scope.

(** ** Constants *)

Definition TAXA_ITBI : R := 4 / 100.
Definition TAXA_ESCRITURA : R := 3 / 100.
Definition TAXA_FUNDOS : R := 1 / 100.
Definition TAXA_REGISTRO : R := 3 / 100.
Definition TAXA_COMISSAO_VENDA : R := 5 / 100.
Definition TAXA_IR_GCAP : R := 15 / 100.
Definition TAXA_JUROS_ANUAL_DEFAULT : R := 12 / 100.

(** ** Result records (the dicts returned by the stages) *)

Record CustosAquisicao := {
  itbi : R;
  escritura : R;
  fundos : R;
  registro : R;
  total_taxas : R;
  comissao_leiloeiro : R;
  custo_total_ativo : R
}.

Record EstruturaCapital := {
  valor_entrada : R;
  valor_financiado : R;
  capital_proprio_investido : R
}.

Record CustosFinanciamento := {
  prestacao_mensal : R;
  total_prestacoes_pagas : R;
  saldo_devedor : R;
  juros_pagos_no_giro : R;
  amortizacao_no_giro : R
}.

Record Lucros := {
  comissao_venda : R;
  itbi_venda : R;
  escritura_venda : R;
  registro_venda : R;
  total_custos_transferencia : R;
  custos_transferencia_vendedor : R;
  receita_liquida_venda : R;
  lucro_bruto : R;
  ir_gcap : R;
  lucro_liquido : R;
  quem_paga : string;
  saldo_devedor_quitado : R
}.

(** A float that may be not-a-number. *)
Inductive numero :=
| Num (x : R)
| NaN.

Record Metricas := {
  roi : option R;
  roe : option R;
  tir_anual : option numero
}.

(** ** Input validation *)

Definition validar_inputs (lance revenda : R) (meses : Z) (entrada_pct : R)
  : bool * string :=
  if Rle_dec lance 0 then
    (false, "O valor de arremate deve ser maior que zero."%string)
  else if (meses <=? 0)%Z then
    (false, "O tempo de giro deve ser maior que zero."%string)
  else if negb ((if Rle_dec 0 entrada_pct then true else false)
                && (if Rle_dec entrada_pct 100 then true else false)) then
    (false, "O percentual de entrada deve estar entre 0% e 100%."%string)
  else if Rlt_dec revenda lance then
    (true, "Atenção: O valor de revenda é menor que o valor de arremate. Isso pode indicar prejuízo."%string)
  else (true, EmptyString).

(** ** Stage 1: acquisition costs *)

Definition calcular_custos_aquisicao (lance taxa_leiloeiro_pct reforma_extras : R)
  : CustosAquisicao :=
  let itbi := lance * TAXA_ITBI in
  let escritura := lance * TAXA_ESCRITURA in
  let fundos := lance * TAXA_FUNDOS in
  let registro := lance * TAXA_REGISTRO in
  let total_taxas := itbi + escritura + fundos + registro in
  let comissao_leiloeiro := lance * taxa_leiloeiro_pct in
  let custo_total_ativo :=
    lance + total_taxas + comissao_leiloeiro + reforma_extras in
  {| itbi := itbi;
     escritura := escritura;
     fundos := fundos;
     registro := registro;
     total_taxas := total_taxas;
     comissao_leiloeiro := comissao_leiloeiro;
     custo_total_ativo := custo_total_ativo |}.

(** ** Stage 2: capital structure *)

Definition calcular_estrutura_capital
  (lance entrada_pct total_taxas comissao_leiloeiro reforma_extras : R)
  : EstruturaCapital :=
  let valor_entrada := lance * entrada_pct in
  let valor_financiado := lance - valor_entrada in
  let capital_proprio_investido :=
    valor_entrada + total_taxas + comissao_leiloeiro + reforma_extras in
  {| valor_entrada := valor_entrada;
     valor_financiado := valor_financiado;
     capital_proprio_investido := capital_proprio_investido |}.

(** ** Stage 4: sale profit

    The payer is the string the caller passes; the code only compares it
    with ["Comprador"]. *)

Definition calcular_lucros
  (revenda capital_proprio_investido saldo_devedor juros_pagos_no_giro : R)
  (quem_paga_custos_venda : string) : Lucros :=
  let comissao_venda := revenda * TAXA_COMISSAO_VENDA in
  let itbi_venda := revenda * TAXA_ITBI in
  let escritura_venda := revenda * TAXA_ESCRITURA in
  let registro_venda := revenda * TAXA_REGISTRO in
  let total_custos_transferencia :=
    itbi_venda + escritura_venda + registro_venda in
  let '(receita_liquida_venda, custos_transferencia_vendedor) :=
    if String.eqb quem_paga_custos_venda "Comprador" then
      (revenda - comissao_venda - saldo_devedor, 0)
    else
      (revenda - comissao_venda - total_custos_transferencia - saldo_devedor,
       total_custos_transferencia) in
  let lucro_bruto :=
    receita_liquida_venda - capital_proprio_investido - juros_pagos_no_giro in
  let ir_gcap := if Rlt_dec 0 lucro_bruto then lucro_bruto * TAXA_IR_GCAP else 0 in
  let lucro_liquido := lucro_bruto - ir_gcap in
  {| comissao_venda := comissao_venda;
     itbi_venda := itbi_venda;
     escritura_venda := escritura_venda;
     registro_venda := registro_venda;
     total_custos_transferencia := total_custos_transferencia;
     custos_transferencia_vendedor := custos_transferencia_vendedor;
     receita_liquida_venda := receita_liquida_venda;
     lucro_bruto := lucro_bruto;
     ir_gcap := ir_gcap;
     lucro_liquido := lucro_liquido;
     quem_paga := quem_paga_custos_venda;
     saldo_devedor_quitado := saldo_devedor |}.

(** ** Outcomes of a call into the IRR solver

    A Python call either returns a value or raises.  The solver's value is
    [None] or a float, and the float may be not-a-number.  The caller names
    two exception classes in its [except] clause; every other class is
    [OutraExcecao]. *)

Inductive excecao :=
| ValueError
| TypeError
| OutraExcecao.

Inductive resultado_irr :=
| Retorna (v : option numero)
| Levanta (e : excecao).

(** What a stage that may let an exception escape produces. *)
Inductive resultado (A : Type) :=
| Ok (a : A)
| Erro (e : excecao).

Arguments Ok {A} a.
Arguments Erro {A} e.

(** [((1 + tir_mensal)**12 - 1) * 100]; arithmetic on a NaN gives a NaN. *)
Definition anualizar (tir_mensal : numero) : numero :=
  match tir_mensal with
  | Num r => Num (((1 + r) ^ 12 - 1) * 100)
  | NaN => NaN
  end.

(** [[-total_investido] + [0] * (meses - 1) + [total_investido + lucro_liquido]];
    a list times a non-positive int is the empty list. *)
Definition fluxo_caixa (total_investido lucro_liquido : R) (meses : Z) : list R :=
  [- total_investido] ++ repeat 0 (Z.to_nat (meses - 1))
    ++ [total_investido + lucro_liquido].

Definition caixa_zero : CustosFinanciamento :=
  {| prestacao_mensal := 0;
     total_prestacoes_pagas := 0;
     saldo_devedor := 0;
     juros_pagos_no_giro := 0;
     amortizacao_no_giro := 0 |}.

(** All five outputs of the loan simulation are zero. *)
Definition saidas_todas_zero (cf : CustosFinanciamento) : Prop :=
  prestacao_mensal cf = 0
  /\ total_prestacoes_pagas cf = 0
  /\ saldo_devedor cf = 0
  /\ juros_pagos_no_giro cf = 0
  /\ amortizacao_no_giro cf = 0.

Section Estagios.

(** [npf.pmt(rate, nper, pv)], [npf.fv(rate, nper, pmt, pv)] and
    [npf.irr(values)]. *)
Variable npf_pmt : R -> Z -> R -> R.
Variable npf_fv : R -> Z -> R -> R -> R.
Variable npf_irr : list R -> resultado_irr.

(** *** Stage 3: financing costs during the holding period *)

Definition calcular_custos_financiamento
  (valor_financiado taxa_juros_anual : R)
  (prazo_total_meses tempo_giro_meses : Z) (considerar_juros : bool)
  : CustosFinanciamento :=
  if negb considerar_juros || (if Req_dec_T valor_financiado 0 then true else false)
  then caixa_zero
  else
    let taxa_mensal := Rpower (1 + taxa_juros_anual) (1 / 12) - 1 in
    let pmt := npf_pmt taxa_mensal prazo_total_meses valor_financiado in
    let prestacao_mensal := - pmt in
    let total_prestacoes_pagas := prestacao_mensal * IZR tempo_giro_meses in
    let fv := npf_fv taxa_mensal tempo_giro_meses pmt valor_financiado in
    let saldo_devedor := - fv in
    let saldo_devedor := Rmax 0 saldo_devedor in
    let amortizacao_no_giro := valor_financiado - saldo_devedor in
    let juros_pagos_no_giro := total_prestacoes_pagas - amortizacao_no_giro in
    {| prestacao_mensal := prestacao_mensal;
       total_prestacoes_pagas := total_prestacoes_pagas;
       saldo_devedor := saldo_devedor;
       juros_pagos_no_giro := juros_pagos_no_giro;
       amortizacao_no_giro := amortizacao_no_giro |}.

(** *** Stage 5: return metrics *)

Definition calcular_metricas_financeiras
  (lucro_liquido custo_total_ativo total_investido : R) (meses : Z)
  : resultado Metricas :=
  let roi :=
    if Req_dec_T custo_total_ativo 0 then None
    else Some (lucro_liquido / custo_total_ativo * 100) in
  let roe :=
    if Req_dec_T total_investido 0 then None
    else Some (lucro_liquido / total_investido * 100) in
  let fluxo_caixa := fluxo_caixa total_investido lucro_liquido meses in
  let retorno tir_anual :=
    Ok {| roi := roi; roe := roe; tir_anual := tir_anual |} in
  match npf_irr fluxo_caixa with
  | Retorna (Some tir_mensal) => retorno (Some (anualizar tir_mensal))
  | Retorna None => retorno None
  | Levanta ValueError => retorno None
  | Levanta TypeError => retorno None
  | Levanta OutraExcecao => Erro OutraExcecao
  end.

(** *** The page's main computation *)

Record Entradas := {
  lance : R;
  revenda : R;
  meses : Z;
  taxa_leiloeiro_pct : R;
  reforma_extras : R;
  entrada_pct : R;
  considerar_juros : bool;
  taxa_juros_anual : R;
  prazo_financiamento_meses : Z;
  quem_paga_custos_venda : string
}.

Record Simulacao := {
  custos_aquisicao : CustosAquisicao;
  estrutura_capital : EstruturaCapital;
  custos_financ : CustosFinanciamento;
  lucros : Lucros;
  total_investido : R;
  metricas : resultado Metricas
}.

Definition simular (e : Entradas) : Simulacao :=
  let custos_aquisicao :=
    calcular_custos_aquisicao (lance e) (taxa_leiloeiro_pct e) (reforma_extras e) in
  let estrutura_capital :=
    if negb (considerar_juros e) then
      calcular_estrutura_capital (lance e) 1
        (total_taxas custos_aquisicao) (comissao_leiloeiro custos_aquisicao)
        (reforma_extras e)
    else
      calcular_estrutura_capital (lance e) (entrada_pct e)
        (total_taxas custos_aquisicao) (comissao_leiloeiro custos_aquisicao)
        (reforma_extras e) in
  let custos_financ :=
    calcular_custos_financiamento
      (valor_financiado estrutura_capital)
      (taxa_juros_anual e)
      (if considerar_juros e then prazo_financiamento_meses e else meses e)
      (meses e)
      (considerar_juros e) in
  let lucros :=
    calcular_lucros (revenda e)
      (capital_proprio_investido estrutura_capital)
      (saldo_devedor custos_financ)
      (juros_pagos_no_giro custos_financ)
      (quem_paga_custos_venda e) in
  let total_investido :=
    capital_proprio_investido estrutura_capital
    + juros_pagos_no_giro custos_financ in
  let metricas :=
    calcular_metricas_financeiras
      (lucro_liquido lucros) (custo_total_ativo custos_aquisicao)
      total_investido (meses e) in
  {| custos_aquisicao := custos_aquisicao;
     estrutura_capital := estrutura_capital;
     custos_financ := custos_financ;
     lucros := lucros;
     total_investido := total_investido;
     metricas := metricas |}.

(** The page validates [entrada_pct * 100], the slider's value. *)
Definition entradas_validas (e : Entradas) : bool :=
  fst (validar_inputs (lance e) (revenda e) (meses e) (entrada_pct e * 100)).

(** *** The page's reconciliation of the net profit ("Metodo 1") *)

Definition total_saidas (s : Simulacao) : R :=
  capital_proprio_investido (estrutura_capital s)
  + juros_pagos_no_giro (custos_financ s).

Definition total_entradas (e : Entradas) (s : Simulacao) : R :=
  revenda e - comissao_venda (lucros s)
  - custos_transferencia_vendedor (lucros s)
  - saldo_devedor (custos_financ s).

Definition lucro_calculado_metodo1 (e : Entradas) (s : Simulacao) : R :=
  total_entradas e s - total_saidas s - ir_gcap (lucros s).

Definition diferenca (e : Entradas) (s : Simulacao) : R :=
  Rabs (lucro_calculado_metodo1 e s - lucro_liquido (lucros s)).

Definition validacao_ok (e : Entradas) (s : Simulacao) : bool :=
  if Rlt_dec (diferenca e s) (1 / 100) then true else false.

End Estagios.


(** ** A model of the two closed forms of numpy_financial *)

Module NumpyFinancial.

(** Payments fall due at the end of a period ([when='end']). *)
Definition when : R := 0.

(** Modelled from the spec: the divisor of [numpy_financial.pmt], which is
    library code outside the repository.  It is [nper] at rate zero (the
    spec's zero-rate case) and [(1 + rate*when)*(temp - 1)/rate] otherwise,
    with [temp = (1 + rate)**nper]. *)
Definition pmt_fact (rate : R) (nper : Z) : R :=
  let temp := powerRZ (1 + rate) nper in
  if Req_dec_T rate 0 then IZR nper
  else (1 + rate * when) * (temp - 1) / rate.

(** Modelled from the spec: [numpy_financial.pmt] is library code outside
    the repository.  The spec names it the standard annuity formula, with
    the zero-rate case handled apart; the definition follows the library's
    way of computing it, [-(fv + pv*temp)/fact] with [fv = 0]. *)
Definition pmt (rate : R) (nper : Z) (pv : R) : R :=
  let temp := powerRZ (1 + rate) nper in
  - (0 + pv * temp) / pmt_fact rate nper.

(** Modelled from the spec: [numpy_financial.fv] is library code outside
    the repository.  The spec names it the standard amortization
    future-value formula; at rate zero it is [-(pv + pmt*nper)]. *)
Definition fv (rate : R) (nper : Z) (pmt pv : R) : R :=
  if Req_dec_T rate 0 then - (pv + pmt * IZR nper)
  else
    let temp := powerRZ (1 + rate) nper in
    - pv * temp - pmt * (1 + rate * when) / rate * (temp - 1).

End NumpyFinancial.

(** Solvers used to instantiate the stages at concrete inputs. *)

(** A solver that reports every series as unsolvable the way a float
    computation does, with a NaN. *)
Definition irr_nan (values : list R) : resultado_irr := Retorna (Some NaN).

(** A solver that answers a fixed rate. *)
Definition irr_taxa (r : R) (values : list R) : resultado_irr :=
  Retorna (Some (Num r)).

(** Net present value of a series at rate [r]: the quantity a rate of
    return has to bring to zero. *)
Fixpoint npv_aux (x : R) (values : list R) : R :=
  match values with
  | [] => 0
  | v :: vs => v + npv_aux x vs / x
  end.

Definition npv (r : R) (values : list R) : R := npv_aux (1 + r) values.

(** The spec's example scenario. *)
Definition cenario_exemplo : Entradas :=
  {| lance := 87000;
     revenda := 160000;
     meses := 6;
     taxa_leiloeiro_pct := 0;
     reforma_extras := 12000;
     entrada_pct := 20 / 100;
     considerar_juros := true;
     taxa_juros_anual := 12 / 100;
     prazo_financiamento_meses := 120;
     quem_paga_custos_venda := "Vendedor" |}.

(** A scenario the page accepts without warning: nothing down, a loan at
    rate zero over 120 months, resale above the bid after 6 months. *)
Definition cenario_taxa_zero : Entradas :=
  {| lance := 87000;
     revenda := 90000;
     meses := 6;
     taxa_leiloeiro_pct := 0;
     reforma_extras := 12000;
     entrada_pct := 0;
     considerar_juros := true;
     taxa_juros_anual := 0;
     prazo_financiamento_meses := 120;
     quem_paga_custos_venda := "Vendedor" |}.

(** ** The access gate

    [st.session_state] is a dict from keys to values; the two keys the gate
    uses hold a string and a bool.  Drawing the input box is not
    modelled. *)

Inductive valor_sessao :=
| VStr (s : string)
| VBool (b : bool).

Definition session_state := string -> option valor_sessao.

Definition sessao_vazia : session_state := fun _ => None.

Definition sessao_set (k : string) (v : valor_sessao) (st : session_state)
  : session_state :=
  fun k' => if String.eqb k k' then Some v else st k'.

Definition sessao_del (k : string) (st : session_state) : session_state :=
  fun k' => if String.eqb k k' then None else st k'.

(** [v == "investimento"]: a value that is not a string is different from
    every string. *)
Definition valor_igual_str (v : valor_sessao) (s : string) : bool :=
  match v with
  | VStr s' => String.eqb s' s
  | VBool _ => false
  end.

(** The truth value Python gives to a stored value. *)
Definition verdadeiro (v : valor_sessao) : bool :=
  match v with
  | VStr s => negb (String.eqb s EmptyString)
  | VBool b => b
  end.

(** The callback of the input box; [None] is the [KeyError] of reading a
    key that is not in the dict. *)
Definition password_entered (st : session_state) : option session_state :=
  match st "password"%string with
  | None => None
  | Some v =>
      if valor_igual_str v "investimento" then
        Some (sessao_del "password" (sessao_set "password_correct" (VBool true) st))
      else
        Some (sessao_set "password_correct" (VBool false) st)
  end.

Definition verificar_senha (st : session_state) : bool :=
  match st "password_correct"%string with
  | None => false
  | Some v => if negb (verdadeiro v) then false else true
  end.

(** ** Currency text *)

(** [s.replace(old, new)] for a non-empty [old]: occurrences are taken from
    the left and do not overlap.  [skip] counts the characters of a matched
    occurrence that are still to be dropped. *)
Fixpoint replace_aux (old new : string) (skip : nat) (s : string) : string :=
  match s with
  | EmptyString => EmptyString
  | String c s' =>
      match skip with
      | S k => replace_aux old new k s'
      | O =>
          if String.prefix old s then
            (new ++ replace_aux old new (String.length old - 1) s')%string
          else String c (replace_aux old new 0 s')
      end
  end.

Definition str_replace (old new s : string) : string := replace_aux old new 0 s.

(** What the three replacements of the fallback are meant to do to one
    character. *)
Definition troca_separador (c : Ascii.ascii) : Ascii.ascii :=
  if Ascii.eqb c ","%char then "."%char
  else if Ascii.eqb c "."%char then ","%char
  else c.

Fixpoint map_string (f : Ascii.ascii -> Ascii.ascii) (s : string) : string :=
  match s with
  | EmptyString => EmptyString
  | String c s' => String (f c) (map_string f s')
  end.

Fixpoint sem_letra_t (s : string) : bool :=
  match s with
  | EmptyString => true
  | String c s' => negb (Ascii.eqb c "t"%char) && sem_letra_t s'
  end.

(** [pd.DataFrame] of two columns: the columns must have the same length,
    otherwise pandas raises ([None]). *)
Definition pd_DataFrame {A : Type} (coluna1 : list string) (coluna2 : list A)
  : option (list (string * A)) :=
  if Nat.eqb (List.length coluna1) (List.length coluna2)
  then Some (combine coluna1 coluna2)
  else None.

(** [df[col].apply(f)] on the second column. *)
Definition df_apply {A B : Type} (f : A -> B) (df : list (string * A))
  : list (string * B) :=
  map (fun linha => (fst linha, f (snd linha))) df.

Section Apresentacao.

(** [locale.currency(valor, grouping=True)], [None] when it raises
    [locale.Error] or [ValueError]; and the text of [f"{valor:,.2f}"]. *)
Variable locale_currency : R -> option string.
Variable formato_milhar_2f : R -> string.

Definition formatar_moeda (valor : R) : string :=
  match locale_currency valor with
  | Some s => s
  | None =>
      str_replace "temp" "."
        (str_replace "." ","
           (str_replace "," "temp" ("R$ " ++ formato_milhar_2f valor)%string))
  end.

(** *** The cost breakdown table *)

Definition categorias_detalhamento : list string :=
  [ "Valor de Arremate";
    "ITBI (4%) - Aquisição";
    "Escritura (3%) - Aquisição";
    "Fundos (1%)";
    "Registro (3%) - Aquisição";
    "Comissão Leiloeiro";
    "Reforma e Custos Extras";
    "Prestações Pagas (Durante Giro)";
    "Saldo Devedor Quitado (Venda)";
    "Comissão de Venda (5% - SEMPRE)";
    "Custos de Transferência (Venda - Condicional)";
    "Imposto de Renda (GCAP)" ]%string.

Definition valores_detalhamento
  (custos_aquisicao : CustosAquisicao)
  (reforma_extras comissao_venda custos_transferencia_vendedor ir_gcap
   saldo_devedor total_prestacoes_pagas lance : R) : list R :=
  [ lance;
    itbi custos_aquisicao;
    escritura custos_aquisicao;
    fundos custos_aquisicao;
    registro custos_aquisicao;
    comissao_leiloeiro custos_aquisicao;
    reforma_extras;
    total_prestacoes_pagas;
    saldo_devedor;
    comissao_venda;
    custos_transferencia_vendedor;
    ir_gcap ].

Definition criar_dataframe_detalhamento
  (custos_aquisicao : CustosAquisicao)
  (reforma_extras comissao_venda custos_transferencia_vendedor ir_gcap
   saldo_devedor total_prestacoes_pagas lance : R)
  : option (list (string * string)) :=
  match pd_DataFrame categorias_detalhamento
          (valores_detalhamento custos_aquisicao reforma_extras comissao_venda
             custos_transferencia_vendedor ir_gcap saldo_devedor
             total_prestacoes_pagas lance) with
  | Some df => Some (df_apply formatar_moeda df)
  | None => None
  end.

(** *** The cash-flow statement *)

Definition descricoes_fluxo_caixa : list string :=
  [ "💸 SAÍDAS DE CAIXA (O que você pagou DO SEU BOLSO)";
    "   Capital Próprio Inicial";
    "   Juros Pagos Durante Giro";
    "   TOTAL INVESTIDO DO SEU BOLSO";
    "";
    "💰 ENTRADAS DE CAIXA (O que você recebeu)";
    "   Valor de Revenda";
    "   (-) Comissão de Venda (5% - SEMPRE)";
    "   (-) Custos de Transferência (ITBI+Escritura+Registro)";
    "   (-) Saldo Devedor Quitado no Banco";
    "   TOTAL LÍQUIDO RECEBIDO";
    "";
    "📊 RESULTADO";
    "   Lucro Bruto (Recebido - Investido)";
    "   (-) Imposto de Renda (15%)";
    "   LUCRO LÍQUIDO FINAL" ]%string.

(** The amounts of the sixteen lines before they are turned into text; a
    line without amount is [None]. *)
Definition quantias_fluxo_caixa
  (capital_proprio juros_pagos receita_venda comissao_venda
   custos_transferencia saldo_devedor_quitado lucro_bruto ir_gcap
   lucro_liquido : R) : list (option R) :=
  [ None;
    Some capital_proprio;
    Some juros_pagos;
    Some (capital_proprio + juros_pagos);
    None;
    None;
    Some receita_venda;
    Some (- comissao_venda);
    Some (- custos_transferencia);
    Some (- saldo_devedor_quitado);
    Some (receita_venda - comissao_venda - custos_transferencia
          - saldo_devedor_quitado);
    None;
    None;
    Some lucro_bruto;
    Some (- ir_gcap);
    Some lucro_liquido ].

Definition texto_quantia (q : option R) : string :=
  match q with
  | Some valor => formatar_moeda valor
  | None => EmptyString
  end.

Definition criar_demonstrativo_fluxo_caixa
  (capital_proprio juros_pagos receita_venda comissao_venda
   custos_transferencia saldo_devedor_quitado lucro_bruto ir_gcap
   lucro_liquido : R) : option (list (string * string)) :=
  pd_DataFrame descricoes_fluxo_caixa
    (map texto_quantia
       (quantias_fluxo_caixa capital_proprio juros_pagos receita_venda
          comissao_venda custos_transferencia saldo_devedor_quitado
          lucro_bruto ir_gcap lucro_liquido)).

End Apresentacao.

(** ** The page: from the widgets to the computation *)

(** The values read from the sidebar.  The two sliders and the select box
    give ints, divided by 100 by the page. *)
Record Widgets := {
  w_lance : R;
  w_revenda : R;
  w_meses : Z;
  w_comissao_leiloeiro : Z;
  w_reforma_extras : R;
  w_entrada : Z;
  w_considerar_juros : bool;
  w_taxa_juros_anual : R;
  w_prazo_financiamento : Z;
  w_quem_paga : string
}.

Definition entradas_da_pagina (w : Widgets) : Entradas :=
  {| lance := w_lance w;
     revenda := w_revenda w;
     meses := w_meses w;
     taxa_leiloeiro_pct := IZR (w_comissao_leiloeiro w) / 100;
     reforma_extras := w_reforma_extras w;
     entrada_pct := IZR (w_entrada w) / 100;
     considerar_juros := w_considerar_juros w;
     taxa_juros_anual :=
       if w_considerar_juros w then w_taxa_juros_anual w / 100 else 12 / 100;
     prazo_financiamento_meses :=
       if w_considerar_juros w then w_prazo_financiamento w else w_meses w;
     quem_paga_custos_venda := w_quem_paga w |}.

(** The ranges the widgets allow. *)
Definition widgets_nos_limites (w : Widgets) : Prop :=
  (1 <= w_meses w <= 36)%Z
  /\ (w_comissao_leiloeiro w = 0 \/ w_comissao_leiloeiro w = 5
      \/ w_comissao_leiloeiro w = 10)%Z
  /\ (0 <= w_entrada w <= 100)%Z
  /\ 0 <= w_taxa_juros_anual w
  /\ (1 <= w_prazo_financiamento w <= 420)%Z.

Section Pagina.

Variable npf_pmt : R -> Z -> R -> R.
Variable npf_fv : R -> Z -> R -> R -> R.
Variable npf_irr : list R -> resultado_irr.

(** The page stops when the gate or the validation refuses ([None]);
    otherwise it computes. *)
Definition pagina (st : session_state) (w : Widgets) : option Simulacao :=
  if negb (verificar_senha st) then None
  else
    let e := entradas_da_pagina w in
    let '(valido, mensagem) :=
      validar_inputs (lance e) (revenda e) (meses e) (entrada_pct e * 100) in
    if negb valido then None
    else Some (simular npf_pmt npf_fv npf_irr e).

End Pagina.

(** The balance of a constant-instalment loan of [F] over [N] months after
    [H] instalments, at monthly rate [taxa_mensal]: the closed form that the
    loan simulation is compared with. *)
Definition saldo_price (taxa_mensal F : R) (N H : Z) : R :=
  if Req_dec_T taxa_mensal 0 then F * (IZR N - IZR H) / IZR N
  else
    F * (powerRZ (1 + taxa_mensal) N - powerRZ (1 + taxa_mensal) H)
    / (powerRZ (1 + taxa_mensal) N - 1).

(** Values used to instantiate the page at a concrete point: a session
    that has passed the gate, the widgets at their defaults, and a number
    text as [f"{valor:,.2f}"] writes it. *)
Definition sessao_aberta : session_state :=
  sessao_set "password_correct" (VBool true) sessao_vazia.

Definition widgets_padrao : Widgets :=
  {| w_lance := 87000;
     w_revenda := 160000;
     w_meses := 6;
     w_comissao_leiloeiro := 0;
     w_reforma_extras := 12000;
     w_entrada := 20;
     w_considerar_juros := true;
     w_taxa_juros_anual := 12;
     w_prazo_financiamento := 120;
     w_quem_paga := "Vendedor" |}.

Definition formato_exemplo (valor : R) : string := "1,234.56".

Definition locale_indisponivel (valor : R) : option string := None.

(** Two inputs with interest not considered that differ in the
    down-payment fraction, the rate and the term only. *)
Definition cenario_a_vista : Entradas :=
  {| lance := 87000;
     revenda := 160000;
     meses := 6;
     taxa_leiloeiro_pct := 5 / 100;
     reforma_extras := 12000;
     entrada_pct := 20 / 100;
     considerar_juros := false;
     taxa_juros_anual := 12 / 100;
     prazo_financiamento_meses := 6;
     quem_paga_custos_venda := "Comprador" |}.

Definition cenario_a_vista' : Entradas :=
  {| lance := 87000;
     revenda := 160000;
     meses := 6;
     taxa_leiloeiro_pct := 5 / 100;
     reforma_extras := 12000;
     entrada_pct := 1;
     considerar_juros := false;
     taxa_juros_anual := 30 / 100;
     prazo_financiamento_meses := 360;
     quem_paga_custos_venda := "Comprador" |}.


(** * Properties *)

(** ** Sale profit *)

Lemma calcular_lucros_comprador (S C B I : R) :
  calcular_lucros S C B I "Comprador" =
  let lucro_bruto := S - S * TAXA_COMISSAO_VENDA - B - C - I in
  let ir_gcap := if Rlt_dec 0 lucro_bruto then lucro_bruto * TAXA_IR_GCAP else 0 in
  {| comissao_venda := S * TAXA_COMISSAO_VENDA;
     itbi_venda := S * TAXA_ITBI;
     escritura_venda := S * TAXA_ESCRITURA;
     registro_venda := S * TAXA_REGISTRO;
     total_custos_transferencia :=
       S * TAXA_ITBI + S * TAXA_ESCRITURA + S * TAXA_REGISTRO;
     custos_transferencia_vendedor := 0;
     receita_liquida_venda := S - S * TAXA_COMISSAO_VENDA - B;
     lucro_bruto := lucro_bruto;
     ir_gcap := ir_gcap;
     lucro_liquido := lucro_bruto - ir_gcap;
     quem_paga := "Comprador";
     saldo_devedor_quitado := B |}.
Proof. reflexivity. Qed.

Lemma calcular_lucros_outro (S C B I : R) (quem : string) :
  quem <> "Comprador"%string ->
  calcular_lucros S C B I quem =
  let custos := S * TAXA_ITBI + S * TAXA_ESCRITURA + S * TAXA_REGISTRO in
  let lucro_bruto := S - S * TAXA_COMISSAO_VENDA - custos - B - C - I in
  let ir_gcap := if Rlt_dec 0 lucro_bruto then lucro_bruto * TAXA_IR_GCAP else 0 in
  {| comissao_venda := S * TAXA_COMISSAO_VENDA;
     itbi_venda := S * TAXA_ITBI;
     escritura_venda := S * TAXA_ESCRITURA;
     registro_venda := S * TAXA_REGISTRO;
     total_custos_transferencia := custos;
     custos_transferencia_vendedor := custos;
     receita_liquida_venda := S - S * TAXA_COMISSAO_VENDA - custos - B;
     lucro_bruto := lucro_bruto;
     ir_gcap := ir_gcap;
     lucro_liquido := lucro_bruto - ir_gcap;
     quem_paga := quem;
     saldo_devedor_quitado := B |}.
Proof.
  intros Hq. unfold calcular_lucros.
  destruct (String.eqb_spec quem "Comprador") as [E | _]; [contradiction | reflexivity].
Qed.

(** In either branch the gross profit is the net proceeds less own capital
    and interest, and the net profit is the gross profit less the tax. *)
Lemma calcular_lucros_contas (S C B I : R) (quem : string) :
  let l := calcular_lucros S C B I quem in
  lucro_bruto l = receita_liquida_venda l - C - I
  /\ ir_gcap l = (if Rlt_dec 0 (lucro_bruto l) then lucro_bruto l * TAXA_IR_GCAP else 0)
  /\ lucro_liquido l = lucro_bruto l - ir_gcap l
  /\ comissao_venda l = S * TAXA_COMISSAO_VENDA
  /\ receita_liquida_venda l =
       S - comissao_venda l - custos_transferencia_vendedor l - B.
Proof.
  destruct (String.eqb_spec quem "Comprador") as [-> | Hq].
  - rewrite calcular_lucros_comprador. cbn. repeat split. lra.
  - rewrite (calcular_lucros_outro _ _ _ _ _ Hq). cbn. repeat split.
Qed.

(** C9: the capital-gains tax is 15% of a positive gross profit and zero
    otherwise, and the net profit is the gross profit less that tax. *)
Theorem ir_gcap_sobre_lucro_positivo (S C B I : R) (quem : string) :
  let l := calcular_lucros S C B I quem in
  (0 < lucro_bruto l -> ir_gcap l = lucro_bruto l * (15 / 100))
  /\ (lucro_bruto l <= 0 -> ir_gcap l = 0)
  /\ lucro_liquido l = lucro_bruto l - ir_gcap l.
Proof.
  intros l.
  destruct (calcular_lucros_contas S C B I quem) as (_ & Hir & Hll & _).
  fold l in Hir, Hll. repeat split.
  - intros Hpos. rewrite Hir. destruct (Rlt_dec 0 (lucro_bruto l)); [reflexivity | contradiction].
  - intros Hneg. rewrite Hir. destruct (Rlt_dec 0 (lucro_bruto l)); [lra | reflexivity].
  - exact Hll.
Qed.

(** C8: with every other input the same, the run where the buyer pays has
    no transfer costs on the seller's side, and both its net proceeds and
    its gross profit exceed the seller-pays run's by the transfer costs on
    the resale price, [S * (4% + 3% + 3%)]. *)
Theorem comprador_paga_diferenca (S C B I : R) :
  let lc := calcular_lucros S C B I "Comprador" in
  let lv := calcular_lucros S C B I "Vendedor" in
  custos_transferencia_vendedor lc = 0
  /\ total_custos_transferencia lv = S * (4 / 100 + 3 / 100 + 3 / 100)
  /\ custos_transferencia_vendedor lv = total_custos_transferencia lv
  /\ receita_liquida_venda lc - receita_liquida_venda lv
     = S * (4 / 100 + 3 / 100 + 3 / 100)
  /\ lucro_bruto lc - lucro_bruto lv = S * (4 / 100 + 3 / 100 + 3 / 100).
Proof.
  cbn zeta. rewrite calcular_lucros_comprador.
  rewrite calcular_lucros_outro by discriminate.
  cbn. unfold TAXA_ITBI, TAXA_ESCRITURA, TAXA_REGISTRO.
  repeat split; lra.
Qed.

(** C10: the only payer value that selects the buyer-pays branch is the
    exact string ["Comprador"]; any other string is handled as the seller
    paying: the resale transfer costs are deducted from the net proceeds and
    are the seller's share. *)
Theorem qualquer_outro_pagador_e_vendedor (S C B I : R) (quem : string) :
  quem <> "Comprador"%string ->
  let l := calcular_lucros S C B I quem in
  let lv := calcular_lucros S C B I "Vendedor" in
  total_custos_transferencia l = S * TAXA_ITBI + S * TAXA_ESCRITURA + S * TAXA_REGISTRO
  /\ custos_transferencia_vendedor l = total_custos_transferencia l
  /\ receita_liquida_venda l
     = S - comissao_venda l - total_custos_transferencia l - B
  /\ receita_liquida_venda l = receita_liquida_venda lv
  /\ lucro_bruto l = lucro_bruto lv
  /\ ir_gcap l = ir_gcap lv
  /\ lucro_liquido l = lucro_liquido lv.
Proof.
  intros Hq. cbn zeta.
  rewrite (calcular_lucros_outro _ _ _ _ _ Hq).
  rewrite calcular_lucros_outro by discriminate.
  cbn. repeat split.
Qed.

Lemma qualquer_outro_pagador_e_vendedor_witness :
  "comprador"%string <> "Comprador"%string
  /\ let l := calcular_lucros 160000 30000 60000 4000 "comprador" in
     custos_transferencia_vendedor l = total_custos_transferencia l
     /\ lucro_liquido l
        = lucro_liquido (calcular_lucros 160000 30000 60000 4000 "Vendedor").
Proof.
  assert (Hq : "comprador"%string <> "Comprador"%string) by discriminate.
  split; [exact Hq |].
  destruct (qualquer_outro_pagador_e_vendedor 160000 30000 60000 4000 "comprador" Hq)
    as (_ & H2 & _ & _ & _ & _ & H7).
  split; [exact H2 | exact H7].
Defined.

(** The buyer-pays branch, for comparison: nothing but the commission and
    the balance is deducted. *)
Lemma comprador_paga_receita (S C B I : R) :
  let l := calcular_lucros S C B I "Comprador" in
  custos_transferencia_vendedor l = 0
  /\ receita_liquida_venda l = S - comissao_venda l - B.
Proof. rewrite calcular_lucros_comprador. cbn. split; reflexivity. Qed.

(** ** Capital structure *)

(** C7: the down payment is [P * f], the financed amount is the bid less
    the down payment, and the two add up to the bid.  The bound on [f] is
    not needed. *)
Theorem entrada_mais_financiado (P f taxas comissao extras : R) :
  let ec := calcular_estrutura_capital P f taxas comissao extras in
  valor_entrada ec = P * f
  /\ valor_financiado ec = P - valor_entrada ec
  /\ valor_entrada ec + valor_financiado ec = P.
Proof. cbn. repeat split. lra. Qed.

Lemma entrada_total_sem_financiado (P taxas comissao extras : R) :
  valor_financiado (calcular_estrutura_capital P 1 taxas comissao extras) = 0.
Proof. cbn. lra. Qed.

(** ** Financing *)

Section Financiamento.

Variable npf_pmt : R -> Z -> R -> R.
Variable npf_fv : R -> Z -> R -> R -> R.
Variable npf_irr : list R -> resultado_irr.

Lemma caixa_zero_saidas : saidas_todas_zero caixa_zero.
Proof. repeat split. Qed.

Lemma financiamento_sem_juros (F r : R) (N H : Z) :
  calcular_custos_financiamento npf_pmt npf_fv F r N H false = caixa_zero.
Proof. reflexivity. Qed.

Lemma financiamento_sem_valor (r : R) (N H : Z) (flag : bool) :
  calcular_custos_financiamento npf_pmt npf_fv 0 r N H flag = caixa_zero.
Proof.
  unfold calcular_custos_financiamento.
  destruct (Req_dec_T 0 0) as [_ | Hn]; [| contradiction Hn; reflexivity].
  rewrite orb_true_r. reflexivity.
Qed.

(** With the flag on and a non-zero financed amount the formulas run. *)
Lemma financiamento_com_juros (F r : R) (N H : Z) :
  F <> 0 ->
  calcular_custos_financiamento npf_pmt npf_fv F r N H true =
  let taxa_mensal := Rpower (1 + r) (1 / 12) - 1 in
  let pmt := npf_pmt taxa_mensal N F in
  let saldo := Rmax 0 (- npf_fv taxa_mensal H pmt F) in
  {| prestacao_mensal := - pmt;
     total_prestacoes_pagas := - pmt * IZR H;
     saldo_devedor := saldo;
     juros_pagos_no_giro := - pmt * IZR H - (F - saldo);
     amortizacao_no_giro := F - saldo |}.
Proof.
  intros HF. unfold calcular_custos_financiamento.
  destruct (Req_dec_T F 0) as [E | _]; [contradiction | reflexivity].
Qed.


(** C4: when interest is not considered or nothing is financed, the loan
    simulation returns zero for the payment, the payments made, the balance,
    the interest and the amortization, whatever the rate and the term.  A
    down-payment fraction of 1 leaves nothing financed, so the same holds
    for it at every rate, and the main computation uses that fraction
    whenever interest is not considered. *)
Theorem financiamento_desligado_ou_zero (F r : R) (N H : Z) (flag : bool) :
  flag = false \/ F = 0 ->
  saidas_todas_zero (calcular_custos_financiamento npf_pmt npf_fv F r N H flag)
  /\ (forall (P taxas comissao extras r' : R) (N' H' : Z) (flag' : bool),
        let ec := calcular_estrutura_capital P 1 taxas comissao extras in
        valor_financiado ec = 0
        /\ saidas_todas_zero
             (calcular_custos_financiamento npf_pmt npf_fv
                (valor_financiado ec) r' N' H' flag'))
  /\ (forall e : Entradas,
        considerar_juros e = false ->
        let s := simular npf_pmt npf_fv npf_irr e in
        estrutura_capital s
        = calcular_estrutura_capital (lance e) 1
            (total_taxas (custos_aquisicao s))
            (comissao_leiloeiro (custos_aquisicao s)) (reforma_extras e)
        /\ valor_financiado (estrutura_capital s) = 0
        /\ saidas_todas_zero (custos_financ s)).
Proof.
  intros Hz. split; [| split].
  - destruct Hz as [-> | ->].
    + rewrite financiamento_sem_juros. apply caixa_zero_saidas.
    + rewrite financiamento_sem_valor. apply caixa_zero_saidas.
  - intros P taxas comissao extras r' N' H' flag' ec.
    assert (E : valor_financiado ec = 0) by (subst ec; apply entrada_total_sem_financiado).
    split; [exact E |].
    rewrite E, financiamento_sem_valor. apply caixa_zero_saidas.
  - intros e He s. subst s. unfold simular. rewrite He. cbn [negb].
    cbn [estrutura_capital custos_aquisicao custos_financ].
    split; [reflexivity | split].
    + apply entrada_total_sem_financiado.
    + rewrite financiamento_sem_juros. apply caixa_zero_saidas.
Qed.

(** C6: with interest considered and a positive financed amount, the
    principal amortized during the holding period and the remaining balance
    add up to the financed amount, and the balance is not negative; this
    holds for every holding period and term, also when the holding period
    reaches or passes the term. *)
Theorem amortizacao_mais_saldo (F r : R) (N H : Z) :
  0 < F ->
  let cf := calcular_custos_financiamento npf_pmt npf_fv F r N H true in
  amortizacao_no_giro cf + saldo_devedor cf = F
  /\ 0 <= saldo_devedor cf
  /\ saldo_devedor cf
     = Rmax 0 (- npf_fv (Rpower (1 + r) (1 / 12) - 1) H
                   (npf_pmt (Rpower (1 + r) (1 / 12) - 1) N F) F).
Proof.
  intros HF cf. subst cf.
  rewrite financiamento_com_juros by lra. cbn.
  repeat split; [lra | apply Rmax_l].
Qed.

(** ** The reconciliation of the net profit *)

Lemma metodo1_igual_lucro_liquido (e : Entradas) :
  let s := simular npf_pmt npf_fv npf_irr e in
  lucro_calculado_metodo1 e s = lucro_liquido (lucros s).
Proof.
  intros s. unfold lucro_calculado_metodo1, total_entradas, total_saidas.
  subst s. unfold simular. cbn [lucros estrutura_capital custos_financ].
  match goal with
  | |- context [calcular_lucros ?S ?C ?B ?I ?q] =>
      destruct (calcular_lucros_contas S C B I q) as (Hb & _ & Hl & _ & Hr);
      cbv zeta in Hb, Hl, Hr; rewrite Hl, Hb, Hr
  end.
  lra.
Qed.

(** C1: for valid inputs, the net profit of the main computation and the
    profit recomputed from the cash flows (resale less commission, seller's
    transfer costs and balance; less own capital and interest; less the tax)
    differ by less than 0.01, so the page's check succeeds.  In exact
    arithmetic they are equal. *)
Theorem reconciliacao_lucro_liquido (e : Entradas) :
  entradas_validas e = true ->
  let s := simular npf_pmt npf_fv npf_irr e in
  lucro_calculado_metodo1 e s
  = revenda e - comissao_venda (lucros s)
    - custos_transferencia_vendedor (lucros s) - saldo_devedor (custos_financ s)
    - (capital_proprio_investido (estrutura_capital s)
       + juros_pagos_no_giro (custos_financ s))
    - ir_gcap (lucros s)
  /\ Rabs (lucro_calculado_metodo1 e s - lucro_liquido (lucros s)) < 1 / 100
  /\ validacao_ok e s = true.
Proof.
  intros _ s.
  assert (E : lucro_calculado_metodo1 e s = lucro_liquido (lucros s))
    by apply metodo1_igual_lucro_liquido.
  assert (D : diferenca e s < 1 / 100).
  { unfold diferenca. rewrite E.
    replace (lucro_liquido (lucros s) - lucro_liquido (lucros s)) with 0 by lra.
    rewrite Rabs_R0. lra. }
  split; [reflexivity | split; [exact D |]].
  unfold validacao_ok. destruct (Rlt_dec (diferenca e s) (1 / 100)); [reflexivity | contradiction].
Qed.

End Financiamento.

(** ** The monthly rate and the instalment *)

Lemma Rpower_base_1 (y : R) : Rpower 1 y = 1.
Proof. unfold Rpower. rewrite ln_1, Rmult_0_r. apply exp_0. Qed.

Lemma Rpower_eq_1_inv (x y : R) : 0 < x -> y <> 0 -> Rpower x y = 1 -> x = 1.
Proof.
  intros Hx Hy E. unfold Rpower in E. rewrite <- exp_0 in E.
  apply exp_inv in E.
  apply ln_inv; [exact Hx | lra |].
  rewrite ln_1. apply Rmult_integral in E. destruct E as [E | E]; [contradiction | exact E].
Qed.

(** The monthly rate is above -1, and it is zero exactly at annual rate
    zero. *)
Lemma taxa_mensal_props (r : R) :
  -1 < r ->
  let r_m := Rpower (1 + r) (1 / 12) - 1 in
  -1 < r_m /\ (r = 0 -> r_m = 0) /\ (r <> 0 -> r_m <> 0).
Proof.
  intros Hr r_m. subst r_m. repeat split.
  - assert (0 < Rpower (1 + r) (1 / 12)) by apply exp_pos. lra.
  - intros ->. rewrite Rplus_0_r, Rpower_base_1. lra.
  - intros Hn E. apply Hn.
    assert (E1 : Rpower (1 + r) (1 / 12) = 1) by lra.
    apply Rpower_eq_1_inv in E1; lra.
Qed.

Lemma powerRZ_pos_neq_1 (x : R) (n : Z) :
  0 < x -> x <> 1 -> (0 < n)%Z -> powerRZ x n <> 1.
Proof.
  intros Hx Hx1 Hn.
  rewrite <- (Z2Nat.id n) by lia. rewrite <- pow_powerRZ.
  assert (Hn' : (0 < Z.to_nat n)%nat) by lia.
  destruct (Rlt_dec x 1) as [Hlt | Hge].
  - assert (0 <= x ^ Z.to_nat n < 1) by (apply pow_lt_1_compat; [lra | exact Hn']). lra.
  - assert (1 < x ^ Z.to_nat n) by (apply Rlt_pow_R1; [lra | exact Hn']). lra.
Qed.

(** The divisor of the payment formula is never zero for a positive term
    and a monthly rate above -1. *)
Lemma pmt_fact_neq_0 (rate : R) (nper : Z) :
  -1 < rate -> (0 < nper)%Z -> NumpyFinancial.pmt_fact rate nper <> 0.
Proof.
  intros Hr Hn. unfold NumpyFinancial.pmt_fact, NumpyFinancial.when.
  destruct (Req_dec_T rate 0) as [E | Hne].
  - apply not_0_IZR. lia.
  - assert (Ht : powerRZ (1 + rate) nper <> 1)
      by (apply powerRZ_pos_neq_1; [lra | lra | exact Hn]).
    intros E. apply Ht.
    assert (E' : (powerRZ (1 + rate) nper - 1) * / rate = 0).
    { rewrite <- E. unfold Rdiv. rewrite Rmult_0_r, Rplus_0_r, Rmult_1_l. reflexivity. }
    apply Rmult_integral in E'. destruct E' as [E' | E']; [lra |].
    exfalso. revert E'. apply Rinv_neq_0_compat. exact Hne.
Qed.

(** C5: with interest considered and a positive financed amount [F], the
    monthly rate is [(1 + r)^(1/12) - 1]; for a non-zero annual rate the
    instalment is the annuity payment [F * r_m / (1 - (1 + r_m)^(-N))], at
    annual rate zero it is [F / N], and in both cases no divisor of the
    computation is zero.  The rate is above -1 and the term is positive. *)
Theorem prestacao_tabela_price
  (npf_fv : R -> Z -> R -> R -> R) (F r : R) (N H : Z) :
  0 < F -> -1 < r -> (0 < N)%Z ->
  let cf := calcular_custos_financiamento NumpyFinancial.pmt npf_fv F r N H true in
  let r_m := Rpower (1 + r) (1 / 12) - 1 in
  prestacao_mensal cf = - NumpyFinancial.pmt r_m N F
  /\ NumpyFinancial.pmt_fact r_m N <> 0
  /\ (r <> 0 ->
      r_m <> 0
      /\ 1 - powerRZ (1 + r_m) (- N) <> 0
      /\ prestacao_mensal cf = F * r_m / (1 - powerRZ (1 + r_m) (- N)))
  /\ (r = 0 -> r_m = 0 /\ IZR N <> 0 /\ prestacao_mensal cf = F / IZR N).
Proof.
  intros HF Hr HN cf r_m.
  destruct (taxa_mensal_props r Hr) as (Hm1 & Hm0 & Hmn). fold r_m in Hm1, Hm0, Hmn.
  assert (Hp : prestacao_mensal cf = - NumpyFinancial.pmt r_m N F).
  { subst cf. rewrite financiamento_com_juros by lra. reflexivity. }
  assert (Hfact : NumpyFinancial.pmt_fact r_m N <> 0) by (apply pmt_fact_neq_0; assumption).
  split; [exact Hp | split; [exact Hfact | split]].
  - intros Hr0. specialize (Hmn Hr0).
    assert (Hpos : 0 < powerRZ (1 + r_m) N) by (apply powerRZ_lt; lra).
    assert (Ht : powerRZ (1 + r_m) N <> 1)
      by (apply powerRZ_pos_neq_1; [lra | lra | exact HN]).
    rewrite powerRZ_neg'.
    assert (Hd : 1 - / powerRZ (1 + r_m) N <> 0).
    { intros E. apply Ht.
      assert (E1 : / powerRZ (1 + r_m) N = 1) by lra.
      rewrite <- (Rinv_inv (powerRZ (1 + r_m) N)), E1. apply Rinv_1. }
    split; [exact Hmn | split; [exact Hd |]].
    rewrite Hp. unfold NumpyFinancial.pmt, NumpyFinancial.pmt_fact, NumpyFinancial.when.
    destruct (Req_dec_T r_m 0) as [E | _]; [contradiction |].
    cbv zeta. field. repeat split; lra.
  - intros Hr0. specialize (Hm0 Hr0).
    assert (HN0 : IZR N <> 0) by (apply not_0_IZR; lia).
    split; [exact Hm0 | split; [exact HN0 |]].
    rewrite Hp. unfold NumpyFinancial.pmt, NumpyFinancial.pmt_fact.
    destruct (Req_dec_T r_m 0) as [_ | Hne]; [| contradiction].
    cbv zeta. rewrite Hm0, Rplus_0_r.
    replace (powerRZ 1 N) with 1.
    + field. exact HN0.
    + symmetry. rewrite <- (Z2Nat.id N) by lia. rewrite <- pow_powerRZ. apply pow1.
Qed.

(** ** Return metrics *)

Lemma fluxo_caixa_length (T L : R) (H : Z) :
  List.length (fluxo_caixa T L H) = S (S (Z.to_nat (H - 1))).
Proof.
  unfold fluxo_caixa. cbn [app List.length]. rewrite length_app, repeat_length.
  cbn [List.length]. lia.
Qed.

Lemma fluxo_caixa_meio (T L : R) (H : Z) (i : nat) :
  (i < Z.to_nat (H - 1))%nat -> nth_error (fluxo_caixa T L H) (S i) = Some 0.
Proof.
  intros Hi. unfold fluxo_caixa. cbn [app nth_error].
  rewrite nth_error_app1 by (rewrite repeat_length; exact Hi).
  apply nth_error_repeat. exact Hi.
Qed.

Lemma fluxo_caixa_fim (T L : R) (H : Z) :
  nth_error (fluxo_caixa T L H) (S (Z.to_nat (H - 1))) = Some (T + L).
Proof.
  unfold fluxo_caixa. cbn [app nth_error].
  rewrite nth_error_app2 by (rewrite repeat_length; lia).
  rewrite repeat_length, Nat.sub_diag. reflexivity.
Qed.

Section MetricasFinanceiras.

Variable npf_irr : list R -> resultado_irr.

(** Whenever the stage returns, ROI and ROE follow their guards. *)
Lemma metricas_roi_roe (L custo T : R) (H : Z) (m : Metricas) :
  calcular_metricas_financeiras npf_irr L custo T H = Ok m ->
  (custo = 0 <-> roi m = None)
  /\ (custo <> 0 -> roi m = Some (L / custo * 100))
  /\ (T = 0 <-> roe m = None)
  /\ (T <> 0 -> roe m = Some (L / T * 100)).
Proof.
  unfold calcular_metricas_financeiras.
  assert (G : forall t,
    let m' := {| roi := if Req_dec_T custo 0 then None else Some (L / custo * 100);
                 roe := if Req_dec_T T 0 then None else Some (L / T * 100);
                 tir_anual := t |} in
    (custo = 0 <-> roi m' = None)
    /\ (custo <> 0 -> roi m' = Some (L / custo * 100))
    /\ (T = 0 <-> roe m' = None)
    /\ (T <> 0 -> roe m' = Some (L / T * 100))).
  { intros t. cbn.
    destruct (Req_dec_T custo 0), (Req_dec_T T 0); repeat split;
      try tauto; try discriminate; try contradiction. }
  destruct (npf_irr (fluxo_caixa T L H)) as [[t |] | []]; intros E;
    try discriminate; injection E as <-; apply G.
Qed.

(** The stage lets an exception escape only when the solver raises one
    that the [except] clause does not name. *)
Lemma metricas_levanta (L custo T : R) (H : Z) (e : excecao) :
  calcular_metricas_financeiras npf_irr L custo T H = Erro e <->
  npf_irr (fluxo_caixa T L H) = Levanta OutraExcecao /\ e = OutraExcecao.
Proof.
  unfold calcular_metricas_financeiras.
  destruct (npf_irr (fluxo_caixa T L H)) as [[t |] | []]; split;
    try discriminate; try (intros [? ?]; discriminate).
  - intros E. injection E as <-. split; reflexivity.
  - intros [_ ->]. reflexivity.
Qed.

(** A failure that the solver signals with [None], [ValueError] or
    [TypeError] becomes an annualized rate of [None]. *)
Lemma metricas_falha_capturada (L custo T : R) (H : Z) :
  npf_irr (fluxo_caixa T L H) = Retorna None
  \/ npf_irr (fluxo_caixa T L H) = Levanta ValueError
  \/ npf_irr (fluxo_caixa T L H) = Levanta TypeError ->
  exists m, calcular_metricas_financeiras npf_irr L custo T H = Ok m
            /\ tir_anual m = None.
Proof.
  unfold calcular_metricas_financeiras.
  intros [E | [E | E]]; rewrite E; eexists; split; reflexivity.
Qed.

(** A rate the solver returns is annualized, also when it is a NaN: the
    test [tir_mensal is not None] lets every float through. *)
Lemma metricas_tir_devolvida (L custo T : R) (H : Z) (t : numero) :
  npf_irr (fluxo_caixa T L H) = Retorna (Some t) ->
  exists m, calcular_metricas_financeiras npf_irr L custo T H = Ok m
            /\ tir_anual m = Some (anualizar t).
Proof.
  unfold calcular_metricas_financeiras.
  intros E; rewrite E; eexists; split; reflexivity.
Qed.

(** C2 (amended): for a holding period [H >= 1] the cash-flow series has
    [H + 1] entries: the first is minus the capital deployed, the next
    [H - 1] are zero, and the last is the capital deployed plus the net
    profit.  The solver is applied to that series, and a rate [r] it
    returns is annualized as [((1 + r)^12 - 1) * 100]. *)
Theorem fluxo_caixa_e_tir_anual (L custo T : R) (H : Z) :
  (1 <= H)%Z ->
  let fl := fluxo_caixa T L H in
  List.length fl = Z.to_nat (H + 1)
  /\ nth_error fl 0 = Some (- T)
  /\ (forall i, (1 <= i < Z.to_nat H)%nat -> nth_error fl i = Some 0)
  /\ nth_error fl (Z.to_nat H) = Some (T + L)
  /\ (forall r, npf_irr fl = Retorna (Some (Num r)) ->
      exists m, calcular_metricas_financeiras npf_irr L custo T H = Ok m
                /\ tir_anual m = Some (Num (((1 + r) ^ 12 - 1) * 100))).
Proof.
  intros HH fl. subst fl.
  assert (En : Z.to_nat H = S (Z.to_nat (H - 1))) by lia.
  repeat split.
  - rewrite fluxo_caixa_length. lia.
  - intros [| i] Hi; [lia |]. apply fluxo_caixa_meio. lia.
  - rewrite En. apply fluxo_caixa_fim.
  - intros r E. apply (metricas_tir_devolvida L custo T H (Num r) E).
Qed.

(** C3, at the input [lucro_liquido = -200], [custo_total_ativo = 100],
    [total_investido = 100], [meses = 2]: the series is [-100, 0, -100], no
    rate brings its present value to zero, and when the solver reports that
    with a NaN the stage returns a NaN as annualized rate, not [None]; ROI
    and ROE are the guarded quotients. *)
Theorem tir_sem_solucao_nan :
  npf_irr (fluxo_caixa 100 (-200) 2) = Retorna (Some NaN) ->
  (forall r, 1 + r <> 0 -> npv r (fluxo_caixa 100 (-200) 2) <> 0)
  /\ exists m,
       calcular_metricas_financeiras npf_irr (-200) 100 100 2 = Ok m
       /\ roi m = Some (-200 / 100 * 100)
       /\ roe m = Some (-200 / 100 * 100)
       /\ tir_anual m = Some NaN
       /\ tir_anual m <> None.
Proof.
  intros E. split.
  - intros r Hr.
    assert (Efl : fluxo_caixa 100 (-200) 2 = [- 100; 0; 100 + -200]) by reflexivity.
    rewrite Efl. unfold npv. cbn [npv_aux].
    set (x := 1 + r) in *.
    replace (- 100 + (0 + (100 + -200 + 0 / x) / x) / x)
      with (- (100 * (x * x + 1)) * / (x * x)) by (field; exact Hr).
    apply Rmult_integral_contrapositive_currified.
    + nra.
    + apply Rinv_neq_0_compat. nra.
  - destruct (metricas_tir_devolvida (-200) 100 100 2 NaN E) as (m & Hm & Ht).
    exists m. split; [exact Hm |].
    destruct (metricas_roi_roe _ _ _ _ _ Hm) as (_ & Hroi & _ & Hroe).
    repeat split.
    + apply Hroi. lra.
    + apply Hroe. lra.
    + exact Ht.
    + rewrite Ht. discriminate.
Qed.

End MetricasFinanceiras.

(** ** A scenario from the page whose series has no rate of return *)

(** At rate zero the loan costs no interest, and after six instalments of
    725 the balance of 82650 exceeds what the sale leaves. *)
Lemma cenario_taxa_zero_financiamento (npf_irr : list R -> resultado_irr) :
  let s := simular NumpyFinancial.pmt NumpyFinancial.fv npf_irr cenario_taxa_zero in
  prestacao_mensal (custos_financ s) = 725
  /\ saldo_devedor (custos_financ s) = 82650
  /\ juros_pagos_no_giro (custos_financ s) = 0
  /\ total_investido s = 21570
  /\ lucro_liquido (lucros s) = -27720.
Proof.
  intros s.
  assert (Hcf : custos_financ s =
                {| prestacao_mensal := 725; total_prestacoes_pagas := 4350;
                   saldo_devedor := 82650; juros_pagos_no_giro := 0;
                   amortizacao_no_giro := 4350 |}).
  { subst s. unfold simular, cenario_taxa_zero.
    cbn [custos_financ considerar_juros negb lance entrada_pct taxa_juros_anual
         prazo_financiamento_meses meses valor_financiado calcular_estrutura_capital].
    rewrite financiamento_com_juros by lra.
    rewrite Rplus_0_r, Rpower_base_1.
    replace (1 - 1) with 0 by lra.
    unfold NumpyFinancial.pmt, NumpyFinancial.fv, NumpyFinancial.pmt_fact.
    destruct (Req_dec_T 0 0) as [_ | Hn]; [| contradiction Hn; reflexivity].
    cbv zeta. rewrite Rplus_0_r.
    replace (powerRZ 1 120) with 1 by (symmetry; apply (pow1 120)).
    replace (87000 - 87000 * 0) with 87000 by lra.
    replace (- (- (0 + 87000 * 1) / 120)) with 725 by lra.
    replace (- (0 + 87000 * 1) / 120) with (-725) by lra.
    replace (- - (87000 + -725 * 6)) with 82650 by lra.
    rewrite Rmax_right by lra.
    f_equal; lra. }
  assert (Hec : capital_proprio_investido (estrutura_capital s) = 21570).
  { subst s. unfold simular, cenario_taxa_zero. cbn.
    unfold TAXA_ITBI, TAXA_ESCRITURA, TAXA_FUNDOS, TAXA_REGISTRO. lra. }
  assert (Hti : total_investido s = 21570).
  { change (total_investido s)
      with (capital_proprio_investido (estrutura_capital s)
            + juros_pagos_no_giro (custos_financ s)).
    rewrite Hec, Hcf. cbn. lra. }
  assert (Hl : lucros s = calcular_lucros 90000 21570 82650 0 "Vendedor").
  { change (lucros s)
      with (calcular_lucros (revenda cenario_taxa_zero)
              (capital_proprio_investido (estrutura_capital s))
              (saldo_devedor (custos_financ s))
              (juros_pagos_no_giro (custos_financ s))
              (quem_paga_custos_venda cenario_taxa_zero)).
    rewrite Hec, Hcf. reflexivity. }
  rewrite Hcf, Hl. cbn [prestacao_mensal saldo_devedor juros_pagos_no_giro].
  repeat split; try exact Hti.
  rewrite calcular_lucros_outro by discriminate.
  cbn. unfold TAXA_ITBI, TAXA_ESCRITURA, TAXA_REGISTRO, TAXA_COMISSAO_VENDA, TAXA_IR_GCAP.
  match goal with |- context [Rlt_dec 0 ?x] => destruct (Rlt_dec 0 x) as [Hp | _] end; lra.
Qed.

(** The series handed to the solver is then [-21570, 0, 0, 0, 0, 0, -6150]:
    no rate brings its present value to zero, and a solver that answers NaN
    makes the page's annualized rate a NaN. *)
Lemma cenario_taxa_zero_tir (npf_irr : list R -> resultado_irr) :
  npf_irr (fluxo_caixa 21570 (-27720) 6) = Retorna (Some NaN) ->
  let s := simular NumpyFinancial.pmt NumpyFinancial.fv npf_irr cenario_taxa_zero in
  entradas_validas cenario_taxa_zero = true
  /\ (forall r, 1 + r <> 0 -> npv r (fluxo_caixa 21570 (-27720) 6) <> 0)
  /\ exists m, metricas s = Ok m /\ tir_anual m = Some NaN.
Proof.
  intros E s. split; [| split].
  - unfold entradas_validas, validar_inputs, cenario_taxa_zero.
    cbn [lance revenda meses entrada_pct].
    destruct (Rle_dec 87000 0); [lra |].
    cbn [Z.leb Z.compare].
    destruct (Rle_dec 0 (0 * 100)); [| lra].
    destruct (Rle_dec (0 * 100) 100); [| lra].
    cbn [andb negb].
    destruct (Rlt_dec 90000 87000); [lra | reflexivity].
  - intros r Hr.
    assert (Efl : fluxo_caixa 21570 (-27720) 6
                  = [- 21570; 0; 0; 0; 0; 0; 21570 + -27720]) by reflexivity.
    rewrite Efl. unfold npv. cbn [npv_aux].
    set (x := 1 + r) in *.
    assert (Hx2 : 0 < x * x) by nra.
    assert (Hx6 : 0 < (x * x) * (x * x) * (x * x)) by (apply Rmult_lt_0_compat; [apply Rmult_lt_0_compat |]; exact Hx2).
    replace (- 21570 + (0 + (0 + (0 + (0 + (0 + (21570 + -27720 + 0 / x) / x) / x) / x) / x) / x) / x)
      with (- (21570 * ((x * x) * (x * x) * (x * x)) + 6150)
            * / ((x * x) * (x * x) * (x * x))) by (field; exact Hr).
    apply Rmult_integral_contrapositive_currified.
    + lra.
    + apply Rinv_neq_0_compat. lra.
  - destruct (cenario_taxa_zero_financiamento npf_irr) as (_ & _ & _ & Hti & Hll).
    fold s in Hti, Hll.
    change (metricas s)
      with (calcular_metricas_financeiras npf_irr (lucro_liquido (lucros s))
              (custo_total_ativo (custos_aquisicao s)) (total_investido s)
              (meses cenario_taxa_zero)).
    rewrite Hti, Hll.
    apply (metricas_tir_devolvida npf_irr (-27720) _ 21570 6 NaN E).
Qed.

(** ** The statements at concrete inputs *)

(** C2 as stated fails: at a holding period of 6 months the series has 7
    entries, not 6, and its 6th entry is a zero, not the final inflow. *)
Lemma fluxo_caixa_tem_um_a_mais :
  let fl := fluxo_caixa 100 50 6 in
  List.length fl = 7%nat
  /\ List.length fl <> Z.to_nat 6
  /\ nth_error fl 5 = Some 0
  /\ nth_error fl 5 <> Some (100 + 50)
  /\ nth_error fl 6 = Some (100 + 50).
Proof.
  assert (E : fluxo_caixa 100 50 6 = [- 100; 0; 0; 0; 0; 0; 100 + 50]) by reflexivity.
  cbv zeta. rewrite E. cbn [List.length nth_error].
  repeat split.
  - intros C. apply Nat2Z.inj_iff in C. rewrite Z2Nat.id in C; lia.
  - intros C. injection C as C. lra.
Qed.

Lemma fluxo_caixa_e_tir_anual_witness :
  (1 <= 6)%Z
  /\ List.length (fluxo_caixa 100 50 6) = Z.to_nat (6 + 1)
  /\ exists m,
       calcular_metricas_financeiras (irr_taxa (1 / 100)) 50 120 100 6 = Ok m
       /\ tir_anual m = Some (Num (((1 + 1 / 100) ^ 12 - 1) * 100)).
Proof.
  assert (H6 : (1 <= 6)%Z) by lia.
  split; [exact H6 |].
  destruct (fluxo_caixa_e_tir_anual (irr_taxa (1 / 100)) 50 120 100 6 H6)
    as (Hlen & _ & _ & _ & Htir).
  split; [exact Hlen |].
  apply Htir. reflexivity.
Defined.

Lemma tir_sem_solucao_nan_witness :
  irr_nan (fluxo_caixa 100 (-200) 2) = Retorna (Some NaN)
  /\ exists m,
       calcular_metricas_financeiras irr_nan (-200) 100 100 2 = Ok m
       /\ tir_anual m = Some NaN.
Proof.
  assert (E : irr_nan (fluxo_caixa 100 (-200) 2) = Retorna (Some NaN)) by reflexivity.
  split; [exact E |].
  destruct (tir_sem_solucao_nan irr_nan E) as (_ & m & Hm & _ & _ & Ht & _).
  exists m. split; [exact Hm | exact Ht].
Defined.

Lemma financiamento_desligado_ou_zero_witness :
  (false = false \/ 69600 = 0)
  /\ saidas_todas_zero
       (calcular_custos_financiamento NumpyFinancial.pmt NumpyFinancial.fv
          69600 (12 / 100) 120 6 false).
Proof.
  assert (Hz : false = false \/ 69600 = 0) by (left; reflexivity).
  split; [exact Hz |].
  exact (proj1 (financiamento_desligado_ou_zero NumpyFinancial.pmt NumpyFinancial.fv
                  irr_nan 69600 (12 / 100) 120 6 false Hz)).
Defined.

Lemma amortizacao_mais_saldo_witness :
  0 < 69600
  /\ let cf := calcular_custos_financiamento NumpyFinancial.pmt NumpyFinancial.fv
                 69600 (12 / 100) 120 6 true in
     amortizacao_no_giro cf + saldo_devedor cf = 69600
     /\ 0 <= saldo_devedor cf.
Proof.
  assert (HF : 0 < 69600) by lra.
  split; [exact HF |].
  destruct (amortizacao_mais_saldo NumpyFinancial.pmt NumpyFinancial.fv
              69600 (12 / 100) 120 6 HF) as (Hs & Hp & _).
  split; [exact Hs | exact Hp].
Defined.

Lemma prestacao_tabela_price_witness :
  0 < 1200 /\ -1 < 0 /\ (0 < 12)%Z
  /\ prestacao_mensal
       (calcular_custos_financiamento NumpyFinancial.pmt NumpyFinancial.fv
          1200 0 12 6 true) = 1200 / IZR 12.
Proof.
  assert (HF : 0 < 1200) by lra.
  assert (Hr : -1 < 0) by lra.
  assert (HN : (0 < 12)%Z) by lia.
  split; [exact HF | split; [exact Hr | split; [exact HN |]]].
  destruct (prestacao_tabela_price NumpyFinancial.fv 1200 0 12 6 HF Hr HN)
    as (_ & _ & _ & Hz).
  destruct (Hz eq_refl) as (_ & _ & Hp). exact Hp.
Defined.

Lemma cenario_exemplo_valido : entradas_validas cenario_exemplo = true.
Proof.
  unfold entradas_validas, validar_inputs, cenario_exemplo.
  cbn [lance revenda meses entrada_pct].
  destruct (Rle_dec 87000 0); [lra |].
  cbn [Z.leb Z.compare].
  destruct (Rle_dec 0 (20 / 100 * 100)); [| lra].
  destruct (Rle_dec (20 / 100 * 100) 100); [| lra].
  cbn [andb negb].
  destruct (Rlt_dec 160000 87000); reflexivity.
Defined.

Lemma reconciliacao_lucro_liquido_witness :
  entradas_validas cenario_exemplo = true
  /\ let s := simular NumpyFinancial.pmt NumpyFinancial.fv irr_nan cenario_exemplo in
     Rabs (lucro_calculado_metodo1 cenario_exemplo s - lucro_liquido (lucros s))
       < 1 / 100
     /\ validacao_ok cenario_exemplo s = true.
Proof.
  split; [exact cenario_exemplo_valido |].
  destruct (reconciliacao_lucro_liquido NumpyFinancial.pmt NumpyFinancial.fv irr_nan
              cenario_exemplo cenario_exemplo_valido) as (_ & Hd & Hv).
  split; [exact Hd | exact Hv].
Defined.


(** * Further properties of the code *)

(** ** Validation *)

Ltac decide_testes :=
  repeat match goal with
    | |- context [Rle_dec ?a ?b] => destruct (Rle_dec a b)
    | |- context [Rlt_dec ?a ?b] => destruct (Rlt_dec a b)
    | |- context [Req_dec_T ?a ?b] => destruct (Req_dec_T a b)
    | |- context [(?a <=? ?b)%Z] => destruct (Z.leb_spec a b)
    end;
  cbn [andb orb negb fst snd].

Lemma validar_inputs_caracterizacao
  (lance revenda : R) (meses : Z) (entrada_pct : R) :
  fst (validar_inputs lance revenda meses entrada_pct) = true
  <-> 0 < lance /\ (0 < meses)%Z /\ 0 <= entrada_pct <= 100.
Proof.
  unfold validar_inputs. decide_testes; split;
    try discriminate; try reflexivity;
    try (intros (? & ? & ? & ?); exfalso; (lra || lia));
    try (intros _; repeat split; (lra || lia)).
Qed.

(** X1: the validation accepts exactly a positive bid, a positive holding
    period and a down-payment percentage between 0 and 100; the resale
    price never makes it refuse. *)
Theorem validar_inputs_aceita (lance revenda : R) (meses : Z) (entrada_pct : R) :
  fst (validar_inputs lance revenda meses entrada_pct) = true
  <-> 0 < lance /\ (0 < meses)%Z /\ 0 <= entrada_pct <= 100.
Proof. exact (validar_inputs_caracterizacao lance revenda meses entrada_pct). Qed.

(** X2: on accepted inputs the message is empty exactly when the resale
    price is not below the bid; otherwise it is the loss warning. *)
Theorem validar_inputs_aviso (lance revenda : R) (meses : Z) (entrada_pct : R) :
  fst (validar_inputs lance revenda meses entrada_pct) = true ->
  (snd (validar_inputs lance revenda meses entrada_pct) = EmptyString
   <-> lance <= revenda)
  /\ (revenda < lance ->
      snd (validar_inputs lance revenda meses entrada_pct)
      = "Atenção: O valor de revenda é menor que o valor de arremate. Isso pode indicar prejuízo."%string).
Proof.
  unfold validar_inputs. decide_testes; try discriminate; intros _; split;
    try (split; [discriminate || (intros _; lra) | (intros; lra) || reflexivity]);
    try (intros; reflexivity); try (intros; lra).
Qed.

(** X3: the three refusals are tried in order, so a non-positive bid is
    reported whatever the other inputs are, and a non-positive period is
    reported before a percentage out of range. *)
Theorem validar_inputs_ordem (lance revenda : R) (meses : Z) (entrada_pct : R) :
  (lance <= 0 ->
   validar_inputs lance revenda meses entrada_pct
   = (false, "O valor de arremate deve ser maior que zero."%string))
  /\ (0 < lance -> (meses <= 0)%Z ->
      validar_inputs lance revenda meses entrada_pct
      = (false, "O tempo de giro deve ser maior que zero."%string))
  /\ (0 < lance -> (0 < meses)%Z -> entrada_pct < 0 \/ 100 < entrada_pct ->
      validar_inputs lance revenda meses entrada_pct
      = (false, "O percentual de entrada deve estar entre 0% e 100%."%string)).
Proof.
  unfold validar_inputs. repeat split; intros; decide_testes;
    try reflexivity; try (exfalso; (lra || lia)).
Qed.

(** ** Acquisition costs and capital structure *)

(** X4: the four fees are 11% of the bid; the total asset cost is the bid
    times [1.11 + commission rate] plus the extras; and with a positive bid,
    a non-negative commission rate and non-negative extras it exceeds the
    bid by at least the fees. *)
Theorem custo_total_ativo_composicao (lance taxa extras : R) :
  0 < lance -> 0 <= taxa -> 0 <= extras ->
  let ca := calcular_custos_aquisicao lance taxa extras in
  total_taxas ca = lance * (11 / 100)
  /\ custo_total_ativo ca = lance * (111 / 100 + taxa) + extras
  /\ lance + total_taxas ca <= custo_total_ativo ca
  /\ lance < custo_total_ativo ca.
Proof.
  intros Hl Ht He. cbn.
  unfold TAXA_ITBI, TAXA_ESCRITURA, TAXA_FUNDOS, TAXA_REGISTRO.
  assert (0 <= lance * taxa) by (apply Rmult_le_pos; lra).
  repeat split; lra.
Qed.

(** X5: when stage 2 is fed with the fees and the commission of stage 1,
    own capital plus the financed amount is the total asset cost, for every
    down-payment fraction. *)
Theorem capital_proprio_mais_financiado (lance taxa extras f : R) :
  let ca := calcular_custos_aquisicao lance taxa extras in
  let ec := calcular_estrutura_capital lance f (total_taxas ca)
              (comissao_leiloeiro ca) extras in
  capital_proprio_investido ec + valor_financiado ec = custo_total_ativo ca.
Proof. cbn. lra. Qed.

(** X6: for a non-negative bid and a fraction in [0,1], down payment and
    financed amount both lie between 0 and the bid. *)
Theorem entrada_e_financiado_limites (lance f taxas comissao extras : R) :
  0 <= lance -> 0 <= f <= 1 ->
  let ec := calcular_estrutura_capital lance f taxas comissao extras in
  0 <= valor_entrada ec <= lance /\ 0 <= valor_financiado ec <= lance.
Proof.
  intros Hl Hf. cbn.
  assert (0 <= lance * f) by (apply Rmult_le_pos; lra).
  assert (lance * f <= lance * 1) by (apply Rmult_le_compat_l; lra).
  lra.
Qed.

(** ** Sale profit *)

(** Net profit against gross profit. *)
Lemma lucro_liquido_forma (S C B I : R) (quem : string) :
  let l := calcular_lucros S C B I quem in
  0 <= ir_gcap l
  /\ lucro_liquido l <= lucro_bruto l
  /\ (0 < lucro_bruto l -> lucro_liquido l = lucro_bruto l * (85 / 100))
  /\ (lucro_bruto l <= 0 -> lucro_liquido l = lucro_bruto l)
  /\ (0 < lucro_liquido l <-> 0 < lucro_bruto l).
Proof.
  intros l.
  destruct (calcular_lucros_contas S C B I quem) as (_ & Hir & Hll & _).
  fold l in Hir, Hll. unfold TAXA_IR_GCAP in Hir.
  destruct (Rlt_dec 0 (lucro_bruto l)) as [Hp | Hn]; rewrite Hll, Hir;
    repeat split; intros; lra.
Qed.

(** X7: the tax is never negative and never turns a gain into a loss: the
    net profit is 85% of a positive gross profit and the gross profit itself
    otherwise, so both have the same sign. *)
Theorem imposto_preserva_sinal (S C B I : R) (quem : string) :
  let l := calcular_lucros S C B I quem in
  0 <= ir_gcap l
  /\ lucro_liquido l <= lucro_bruto l
  /\ (0 < lucro_bruto l -> lucro_liquido l = lucro_bruto l * (85 / 100))
  /\ (lucro_bruto l <= 0 -> lucro_liquido l = lucro_bruto l)
  /\ (0 < lucro_liquido l <-> 0 < lucro_bruto l).
Proof. exact (lucro_liquido_forma S C B I quem). Qed.

(** The gross profit in closed form, for the two kinds of payer. *)
Lemma lucro_bruto_forma (S C B I : R) (quem : string) :
  lucro_bruto (calcular_lucros S C B I quem)
  = (if String.eqb quem "Comprador" then S * (95 / 100) else S * (85 / 100))
    - B - C - I.
Proof.
  destruct (String.eqb_spec quem "Comprador") as [-> | Hq].
  - rewrite calcular_lucros_comprador. cbn. unfold TAXA_COMISSAO_VENDA. lra.
  - rewrite (calcular_lucros_outro _ _ _ _ _ Hq). cbn.
    unfold TAXA_COMISSAO_VENDA, TAXA_ITBI, TAXA_ESCRITURA, TAXA_REGISTRO. lra.
Qed.

(** X8: of the resale price the seller keeps 95% when the buyer pays the
    transfer costs and 85% otherwise, before balance, own capital and
    interest are taken off. *)
Theorem lucro_bruto_fracao_da_revenda (S C B I : R) (quem : string) :
  lucro_bruto (calcular_lucros S C B I "Comprador") = S * (95 / 100) - B - C - I
  /\ (quem <> "Comprador"%string ->
      lucro_bruto (calcular_lucros S C B I quem) = S * (85 / 100) - B - C - I).
Proof.
  split.
  - rewrite lucro_bruto_forma. reflexivity.
  - intros Hq. rewrite lucro_bruto_forma.
    destruct (String.eqb_spec quem "Comprador"); [contradiction | reflexivity].
Qed.

(** X9: with everything else equal, a higher resale price never lowers the
    net profit, and a higher balance, own capital or interest never raises
    it. *)
Theorem lucro_liquido_monotono (S S' C C' B B' I I' : R) (quem : string) :
  S <= S' -> C' <= C -> B' <= B -> I' <= I ->
  lucro_liquido (calcular_lucros S C B I quem)
  <= lucro_liquido (calcular_lucros S' C' B' I' quem).
Proof.
  intros HS HC HB HI.
  assert (Hb : lucro_bruto (calcular_lucros S C B I quem)
               <= lucro_bruto (calcular_lucros S' C' B' I' quem)).
  { rewrite !lucro_bruto_forma. destruct (String.eqb quem "Comprador"); lra. }
  destruct (lucro_liquido_forma S C B I quem) as (_ & _ & Hp & Hn & _).
  destruct (lucro_liquido_forma S' C' B' I' quem) as (_ & _ & Hp' & Hn' & _).
  cbv zeta in Hp, Hn, Hp', Hn'.
  destruct (Rlt_dec 0 (lucro_bruto (calcular_lucros S C B I quem))) as [H1 | H1];
  destruct (Rlt_dec 0 (lucro_bruto (calcular_lucros S' C' B' I' quem))) as [H2 | H2].
  - rewrite Hp, Hp' by assumption. lra.
  - lra.
  - rewrite Hn, Hp' by lra. lra.
  - rewrite Hn, Hn' by lra. lra.
Qed.

(** ** The loan under numpy_financial's closed forms *)

Lemma taxa_mensal_pos (r : R) : 0 < r -> 0 < Rpower (1 + r) (1 / 12) - 1.
Proof.
  intros Hr.
  assert (H : Rpower (1 + r) 0 < Rpower (1 + r) (1 / 12))
    by (apply Rpower_lt; lra).
  rewrite Rpower_O in H by lra. lra.
Qed.

Lemma taxa_mensal_zero : Rpower (1 + 0) (1 / 12) - 1 = 0.
Proof. rewrite Rplus_0_r, Rpower_base_1. lra. Qed.

Lemma powerRZ_mono (t : R) (a b : Z) :
  1 < t -> (a <= b)%Z -> powerRZ t a <= powerRZ t b.
Proof.
  intros Ht Hab. rewrite !powerRZ_Rpower by lra.
  destruct (Z.eq_dec a b) as [-> | Hne]; [lra |].
  left. apply Rpower_lt; [exact Ht | apply IZR_lt; lia].
Qed.

Lemma powerRZ_gt_1 (t : R) (n : Z) : 1 < t -> (0 < n)%Z -> 1 < powerRZ t n.
Proof.
  intros Ht Hn. rewrite powerRZ_Rpower by lra.
  rewrite <- (Rpower_O t) by lra.
  apply Rpower_lt; [exact Ht | apply IZR_lt; exact Hn].
Qed.

(** The balance before the floor, at a non-zero monthly rate. *)
Lemma saldo_sem_piso (rate F : R) (N H : Z) :
  -1 < rate -> rate <> 0 -> (0 < N)%Z ->
  - NumpyFinancial.fv rate H (NumpyFinancial.pmt rate N F) F
  = F * (powerRZ (1 + rate) N - powerRZ (1 + rate) H)
    / (powerRZ (1 + rate) N - 1).
Proof.
  intros Hr Hr0 HN.
  assert (Ht : powerRZ (1 + rate) N <> 1)
    by (apply powerRZ_pos_neq_1; [lra | lra | exact HN]).
  unfold NumpyFinancial.fv, NumpyFinancial.pmt, NumpyFinancial.pmt_fact,
    NumpyFinancial.when.
  destruct (Req_dec_T rate 0) as [E | _]; [contradiction |].
  cbv zeta. field. split; [lra | exact Hr0].
Qed.

(** The balance before the floor, at monthly rate zero. *)
Lemma saldo_sem_piso_zero (F : R) (N H : Z) :
  (0 < N)%Z ->
  - NumpyFinancial.fv 0 H (NumpyFinancial.pmt 0 N F) F
  = F * (IZR N - IZR H) / IZR N
  /\ - NumpyFinancial.pmt 0 N F = F / IZR N.
Proof.
  intros HN.
  assert (HN0 : IZR N <> 0) by (apply not_0_IZR; lia).
  unfold NumpyFinancial.fv, NumpyFinancial.pmt, NumpyFinancial.pmt_fact.
  destruct (Req_dec_T 0 0) as [_ | Hn]; [| contradiction Hn; reflexivity].
  cbv zeta. rewrite Rplus_0_r, powerRZ_R1. split; field; exact HN0.
Qed.

(** The instalment is positive for a positive loan. *)
Lemma prestacao_pos (rate F : R) (N : Z) :
  0 <= rate -> 0 < F -> (0 < N)%Z -> 0 < - NumpyFinancial.pmt rate N F.
Proof.
  intros Hr HF HN.
  assert (HNp : 0 < IZR N) by (apply IZR_lt; exact HN).
  destruct (Req_dec_T rate 0) as [-> | Hr0].
  - destruct (saldo_sem_piso_zero F N 0 HN) as (_ & ->).
    apply Rdiv_lt_0_compat; assumption.
  - assert (Ht : 1 < powerRZ (1 + rate) N) by (apply powerRZ_gt_1; [lra | exact HN]).
    unfold NumpyFinancial.pmt, NumpyFinancial.pmt_fact, NumpyFinancial.when.
    destruct (Req_dec_T rate 0) as [E | _]; [contradiction |].
    cbv zeta.
    replace (- (- (0 + F * powerRZ (1 + rate) N)
                / ((1 + rate * 0) * (powerRZ (1 + rate) N - 1) / rate)))
      with (F * powerRZ (1 + rate) N * rate / (powerRZ (1 + rate) N - 1))
      by (field; split; lra).
    apply Rdiv_lt_0_compat; [| lra].
    repeat apply Rmult_lt_0_compat; lra.
Qed.

Lemma saldo_sem_piso_price (rate F : R) (N H : Z) :
  -1 < rate -> (0 < N)%Z ->
  - NumpyFinancial.fv rate H (NumpyFinancial.pmt rate N F) F
  = saldo_price rate F N H.
Proof.
  intros Hr HN. unfold saldo_price.
  destruct (Req_dec_T rate 0) as [-> | Hr0].
  - apply (saldo_sem_piso_zero F N H HN).
  - apply saldo_sem_piso; assumption.
Qed.

Lemma saldo_price_decrescente (rate F : R) (N H1 H2 : Z) :
  0 <= rate -> 0 < F -> (0 < N)%Z -> (H1 <= H2)%Z ->
  saldo_price rate F N H2 <= saldo_price rate F N H1.
Proof.
  intros Hr HF HN HH. unfold saldo_price.
  assert (HNp : 0 < IZR N) by (apply IZR_lt; exact HN).
  destruct (Req_dec_T rate 0) as [E | Hr0].
  - assert (IZR H1 <= IZR H2) by (apply IZR_le; exact HH).
    unfold Rdiv. apply Rmult_le_compat_r; [left; apply Rinv_0_lt_compat; lra |].
    apply Rmult_le_compat_l; lra.
  - assert (Ht : 1 < powerRZ (1 + rate) N) by (apply powerRZ_gt_1; [lra | exact HN]).
    assert (Hm : powerRZ (1 + rate) H1 <= powerRZ (1 + rate) H2)
      by (apply powerRZ_mono; [lra | exact HH]).
    unfold Rdiv. apply Rmult_le_compat_r; [left; apply Rinv_0_lt_compat; lra |].
    apply Rmult_le_compat_l; lra.
Qed.

Lemma saldo_price_extremos (rate F : R) (N : Z) :
  0 <= rate -> (0 < N)%Z ->
  saldo_price rate F N 0 = F /\ saldo_price rate F N N = 0.
Proof.
  intros Hr HN. unfold saldo_price.
  assert (HNp : 0 < IZR N) by (apply IZR_lt; exact HN).
  destruct (Req_dec_T rate 0) as [E | Hr0].
  - split; field; lra.
  - assert (Ht : 1 < powerRZ (1 + rate) N) by (apply powerRZ_gt_1; [lra | exact HN]).
    rewrite powerRZ_O. split; field; lra.
Qed.

(** The loan simulation under the closed forms, with its balance written
    with [saldo_price]. *)
Lemma financiamento_price (F r : R) (N H : Z) :
  0 < F -> 0 <= r -> (0 < N)%Z ->
  let r_m := Rpower (1 + r) (1 / 12) - 1 in
  let cf := calcular_custos_financiamento NumpyFinancial.pmt NumpyFinancial.fv
              F r N H true in
  0 <= r_m
  /\ (r = 0 -> r_m = 0)
  /\ prestacao_mensal cf = - NumpyFinancial.pmt r_m N F
  /\ total_prestacoes_pagas cf = prestacao_mensal cf * IZR H
  /\ saldo_devedor cf = Rmax 0 (saldo_price r_m F N H)
  /\ amortizacao_no_giro cf = F - saldo_devedor cf
  /\ juros_pagos_no_giro cf = prestacao_mensal cf * IZR H - (F - saldo_devedor cf).
Proof.
  intros HF Hr HN r_m cf.
  assert (Hrm : 0 <= r_m).
  { destruct (Req_dec_T r 0) as [-> | Hr0].
    - subst r_m. rewrite taxa_mensal_zero. lra.
    - left. apply taxa_mensal_pos. lra. }
  split; [exact Hrm |].
  split; [intros ->; apply taxa_mensal_zero |].
  subst cf. rewrite financiamento_com_juros by lra. cbn. fold r_m.
  rewrite saldo_sem_piso_price by (lra || assumption).
  repeat split.
Qed.

Lemma pow_menos_1_limite (r : R) (n : nat) :
  0 <= r -> (1 + r) ^ n - 1 <= r * INR n * (1 + r) ^ n.
Proof.
  intros Hr. induction n as [| n IH].
  - cbn. lra.
  - rewrite S_INR. cbn [pow].
    assert (Hp : 1 <= (1 + r) ^ n) by (apply pow_R1_Rle; lra).
    assert (Hn : 0 <= INR n) by apply pos_INR.
    assert (H1 : 0 <= r * (1 + r) ^ n) by (apply Rmult_le_pos; lra).
    assert (H2 : 0 <= r * (r * (1 + r) ^ n)) by (apply Rmult_le_pos; lra).
    assert (H3 : 0 <= r * (r * INR n * (1 + r) ^ n)).
    { apply Rmult_le_pos; [lra |]. apply Rmult_le_pos; [apply Rmult_le_pos; lra | lra]. }
    nra.
Qed.

(** What the borrower has amortized after [H <= N] instalments is at most
    what the instalments add up to. *)
Lemma amortizado_limite (rate F : R) (N H : Z) :
  0 <= rate -> 0 < F -> (0 < N)%Z -> (0 <= H <= N)%Z ->
  F - saldo_price rate F N H <= - NumpyFinancial.pmt rate N F * IZR H.
Proof.
  intros Hr HF HN HH.
  assert (HNp : 0 < IZR N) by (apply IZR_lt; exact HN).
  destruct (Req_dec_T rate 0) as [-> | Hr0].
  - destruct (saldo_sem_piso_zero F N H HN) as (_ & ->).
    unfold saldo_price.
    destruct (Req_dec_T 0 0) as [_ | Hn]; [| contradiction Hn; reflexivity].
    right. field. lra.
  - assert (Ht : 1 < powerRZ (1 + rate) N) by (apply powerRZ_gt_1; [lra | exact HN]).
    unfold saldo_price, NumpyFinancial.pmt, NumpyFinancial.pmt_fact, NumpyFinancial.when.
    destruct (Req_dec_T rate 0) as [E | _]; [contradiction |].
    cbv zeta.
    set (tN := powerRZ (1 + rate) N) in *.
    set (tH := powerRZ (1 + rate) H).
    assert (HtH : tH <= tN) by (apply powerRZ_mono; [lra | lia]).
    assert (HtH1 : 1 <= tH).
    { assert (Hm : powerRZ (1 + rate) 0 <= powerRZ (1 + rate) H)
        by (apply powerRZ_mono; [lra | lia]).
      rewrite powerRZ_O in Hm. exact Hm. }
    assert (Hb : tH - 1 <= rate * IZR H * tH).
    { unfold tH. rewrite <- (Z2Nat.id H) by lia.
      rewrite <- pow_powerRZ, <- INR_IZR_INZ. apply pow_menos_1_limite. exact Hr. }
    assert (HHp : 0 <= IZR H) by (apply IZR_le; lia).
    assert (Hc : rate * IZR H * tH <= rate * IZR H * tN).
    { apply Rmult_le_compat_l; [apply Rmult_le_pos; lra | exact HtH]. }
    replace (F - F * (tN - tH) / (tN - 1)) with (F * (tH - 1) / (tN - 1))
      by (field; lra).
    replace (- (- (0 + F * tN) / ((1 + rate * 0) * (tN - 1) / rate)) * IZR H)
      with (F * (rate * IZR H * tN) / (tN - 1)) by (field; split; lra).
    unfold Rdiv. apply Rmult_le_compat_r; [left; apply Rinv_0_lt_compat; lra |].
    apply Rmult_le_compat_l; lra.
Qed.

Section EmprestimoPrice.

Variables (F r : R) (N : Z).
Hypothesis HF : 0 < F.
Hypothesis Hr : 0 <= r.
Hypothesis HN : (0 < N)%Z.

(** X10: within the term ([0 <= H <= N]) the balance follows the closed
    form of a constant-instalment loan, lies between 0 and the financed
    amount, and is zero when the holding period is the whole term. *)
Theorem saldo_devedor_dentro_do_prazo (H : Z) :
  (0 <= H <= N)%Z ->
  let cf := calcular_custos_financiamento NumpyFinancial.pmt NumpyFinancial.fv
              F r N H true in
  saldo_devedor cf = saldo_price (Rpower (1 + r) (1 / 12) - 1) F N H
  /\ 0 <= saldo_devedor cf <= F
  /\ (H = N -> saldo_devedor cf = 0 /\ amortizacao_no_giro cf = F).
Proof.
  intros HH cf.
  destruct (financiamento_price F r N H HF Hr HN) as (Hrm & _ & _ & _ & Hs & Ha & _).
  fold cf in Hs, Ha. set (r_m := Rpower (1 + r) (1 / 12) - 1) in *.
  destruct (saldo_price_extremos r_m F N Hrm HN) as (E0 & EN).
  assert (Hlo : 0 <= saldo_price r_m F N H).
  { rewrite <- EN. apply saldo_price_decrescente; (assumption || lia). }
  assert (Hhi : saldo_price r_m F N H <= F).
  { rewrite <- E0 at 2. apply saldo_price_decrescente; (assumption || lia). }
  rewrite Rmax_right in Hs by exact Hlo.
  split; [exact Hs | split; [rewrite Hs; lra |]].
  intros ->. rewrite Ha, Hs, EN. split; lra.
Qed.

(** X11: once the holding period reaches the term ([H >= N]) the balance is
    zero and the whole loan counts as amortized, but instalments are still
    counted for all [H] months: the interest reported is
    [prestacao * H - F], which at rate zero is [F * (H - N) / N]. *)
Theorem saldo_devedor_apos_prazo (H : Z) :
  (N <= H)%Z ->
  let cf := calcular_custos_financiamento NumpyFinancial.pmt NumpyFinancial.fv
              F r N H true in
  saldo_devedor cf = 0
  /\ amortizacao_no_giro cf = F
  /\ juros_pagos_no_giro cf = prestacao_mensal cf * IZR H - F
  /\ (r = 0 -> juros_pagos_no_giro cf = F * (IZR H - IZR N) / IZR N).
Proof.
  intros HH cf.
  destruct (financiamento_price F r N H HF Hr HN)
    as (Hrm & Hz & Hp & _ & Hs & Ha & Hj).
  fold cf in Hp, Hs, Ha, Hj. set (r_m := Rpower (1 + r) (1 / 12) - 1) in *.
  destruct (saldo_price_extremos r_m F N Hrm HN) as (_ & EN).
  assert (Hle : saldo_price r_m F N H <= 0).
  { rewrite <- EN. apply saldo_price_decrescente; assumption. }
  rewrite Rmax_left in Hs by exact Hle.
  rewrite Ha, Hj, Hs. repeat split; try lra.
  intros E. rewrite Hp, (Hz E).
  destruct (saldo_sem_piso_zero F N H HN) as (_ & ->).
  field. apply not_0_IZR. lia.
Qed.

(** X12: the longer the holding period, the lower the balance at the
    sale. *)
Theorem saldo_devedor_decrescente (H1 H2 : Z) :
  (H1 <= H2)%Z ->
  saldo_devedor
    (calcular_custos_financiamento NumpyFinancial.pmt NumpyFinancial.fv F r N H2 true)
  <= saldo_devedor
       (calcular_custos_financiamento NumpyFinancial.pmt NumpyFinancial.fv F r N H1 true).
Proof.
  intros HH.
  destruct (financiamento_price F r N H1 HF Hr HN) as (Hrm & _ & _ & _ & Hs1 & _).
  destruct (financiamento_price F r N H2 HF Hr HN) as (_ & _ & _ & _ & Hs2 & _).
  cbv zeta in Hs1, Hs2. rewrite Hs1, Hs2.
  apply Rle_max_compat_l. apply saldo_price_decrescente; assumption.
Qed.

(** X13: for a holding period of [H >= 0] months the interest reported is
    never negative, and a loan at rate zero costs no interest while the
    holding period stays within the term. *)
Theorem juros_nao_negativos (H : Z) :
  (0 <= H)%Z ->
  let cf := calcular_custos_financiamento NumpyFinancial.pmt NumpyFinancial.fv
              F r N H true in
  0 <= juros_pagos_no_giro cf
  /\ (r = 0 -> (H <= N)%Z -> juros_pagos_no_giro cf = 0).
Proof.
  intros HH cf.
  destruct (financiamento_price F r N H HF Hr HN)
    as (Hrm & Hz & Hp & _ & Hs & Ha & Hj).
  fold cf in Hp, Hs, Ha, Hj. set (r_m := Rpower (1 + r) (1 / 12) - 1) in *.
  destruct (saldo_price_extremos r_m F N Hrm HN) as (_ & EN).
  assert (HP : 0 < - NumpyFinancial.pmt r_m N F) by (apply prestacao_pos; assumption).
  split.
  - rewrite Hj, Hs, Hp.
    destruct (Z_le_gt_dec H N) as [Hle | Hgt].
    + assert (Hlo : 0 <= saldo_price r_m F N H).
      { rewrite <- EN. apply saldo_price_decrescente; (assumption || lia). }
      rewrite Rmax_right by exact Hlo.
      pose proof (amortizado_limite r_m F N H Hrm HF HN (conj HH Hle)). lra.
    + assert (Hle : saldo_price r_m F N H <= 0).
      { rewrite <- EN. apply saldo_price_decrescente; (assumption || lia). }
      rewrite Rmax_left by exact Hle.
      pose proof (amortizado_limite r_m F N N Hrm HF HN ltac:(lia)) as HNN.
      rewrite EN in HNN.
      assert (IZR N <= IZR H) by (apply IZR_le; lia).
      assert (- NumpyFinancial.pmt r_m N F * IZR N
              <= - NumpyFinancial.pmt r_m N F * IZR H)
        by (apply Rmult_le_compat_l; lra).
      lra.
  - intros E Hle. rewrite Hj, Hs, Hp, (Hz E).
    destruct (saldo_sem_piso_zero F N H HN) as (_ & ->).
    assert (HNp : 0 < IZR N) by (apply IZR_lt; exact HN).
    assert (IZR H <= IZR N) by (apply IZR_le; exact Hle).
    unfold saldo_price.
    destruct (Req_dec_T 0 0) as [_ | Hn]; [| contradiction Hn; reflexivity].
    rewrite Rmax_right.
    + field. lra.
    + apply Rmult_le_pos; [apply Rmult_le_pos; lra | left; apply Rinv_0_lt_compat; lra].
Qed.

End EmprestimoPrice.

(** ** Return metrics *)

Section MetricasExtras.

Variable npf_irr : list R -> resultado_irr.

(** X14: the stage has two outcomes.  It lets an exception escape exactly
    when the solver raises one that is neither [ValueError] nor
    [TypeError]; otherwise it returns, ROI is [None] exactly when the total
    asset cost is zero and ROE is [None] exactly when the total invested is
    zero, and each is the profit over its base times 100 when defined. *)
Theorem metricas_resultado (L custo T : R) (H : Z) :
  (npf_irr (fluxo_caixa T L H) = Levanta OutraExcecao
   /\ calcular_metricas_financeiras npf_irr L custo T H = Erro OutraExcecao)
  \/ (npf_irr (fluxo_caixa T L H) <> Levanta OutraExcecao
      /\ exists m,
           calcular_metricas_financeiras npf_irr L custo T H = Ok m
           /\ (custo = 0 <-> roi m = None)
           /\ (custo <> 0 -> roi m = Some (L / custo * 100))
           /\ (T = 0 <-> roe m = None)
           /\ (T <> 0 -> roe m = Some (L / T * 100))).
Proof.
  destruct (calcular_metricas_financeiras npf_irr L custo T H) as [m | e] eqn:E.
  - right. split.
    + intros C.
      assert (E' : calcular_metricas_financeiras npf_irr L custo T H = Erro OutraExcecao)
        by (apply metricas_levanta; split; [exact C | reflexivity]).
      rewrite E in E'. discriminate.
    + exists m. split; [reflexivity |]. apply (metricas_roi_roe npf_irr L custo T H m E).
  - left. apply metricas_levanta in E. destruct E as [E ->]. split; [exact E | reflexivity].
Qed.

(** X15: the annualized rate is [None] exactly when the solver returns
    [None] or raises [ValueError] or [TypeError]; every float the solver
    returns, a NaN included, is annualized. *)
Theorem tir_anual_none_sse_falha_sinalizada (L custo T : R) (H : Z) :
  (exists m, calcular_metricas_financeiras npf_irr L custo T H = Ok m
             /\ tir_anual m = None)
  <-> (npf_irr (fluxo_caixa T L H) = Retorna None
       \/ npf_irr (fluxo_caixa T L H) = Levanta ValueError
       \/ npf_irr (fluxo_caixa T L H) = Levanta TypeError).
Proof.
  split.
  - intros (m & Hm & Ht). revert Hm. unfold calcular_metricas_financeiras.
    destruct (npf_irr (fluxo_caixa T L H)) as [[t |] | []]; intros Hm;
      try discriminate; try (injection Hm as <-; discriminate Ht); auto.
  - apply metricas_falha_capturada.
Qed.

(** X16: a rate [r] returned by the solver gives an annualized percentage
    that is never below -100, is zero for [r = 0], positive for [r > 0] and
    negative for [-1 <= r < 0]. *)
Theorem tir_anual_limites (L custo T : R) (H : Z) (r : R) :
  npf_irr (fluxo_caixa T L H) = Retorna (Some (Num r)) ->
  exists m a,
    calcular_metricas_financeiras npf_irr L custo T H = Ok m
    /\ tir_anual m = Some (Num a)
    /\ a = ((1 + r) ^ 12 - 1) * 100
    /\ -100 <= a
    /\ (r = 0 -> a = 0)
    /\ (0 < r -> 0 < a)
    /\ (-1 <= r < 0 -> a < 0).
Proof.
  intros E.
  destruct (metricas_tir_devolvida npf_irr L custo T H (Num r) E) as (m & Hm & Ht).
  exists m, (((1 + r) ^ 12 - 1) * 100).
  split; [exact Hm | split; [exact Ht | split; [reflexivity |]]].
  repeat split.
  - assert (0 <= (1 + r) ^ 12).
    { replace 12%nat with (2 * 6)%nat by reflexivity. rewrite pow_mult.
      apply pow_le. apply pow2_ge_0. }
    lra.
  - intros ->. rewrite Rplus_0_r, pow1. lra.
  - intros Hp. assert (1 < (1 + r) ^ 12) by (apply Rlt_pow_R1; [lra | lia]). lra.
  - intros Hn. assert (0 <= (1 + r) ^ 12 < 1) by (apply pow_lt_1_compat; [lra | lia]). lra.
Qed.

End MetricasExtras.

(** X17: for a holding period of one month or less (zero and negative
    counts included) the series has just the two entries
    [-total_investido] and [total_investido + lucro_liquido]. *)
Theorem fluxo_caixa_periodo_curto (T L : R) (H : Z) :
  (H <= 1)%Z -> fluxo_caixa T L H = [- T; T + L].
Proof.
  intros HH. unfold fluxo_caixa.
  replace (Z.to_nat (H - 1)) with 0%nat by lia. reflexivity.
Qed.

Lemma npv_aux_zeros (x v : R) (n : nat) :
  x <> 0 -> npv_aux x (repeat 0 n ++ [v]) = v / x ^ n.
Proof.
  intros Hx. induction n as [| n IH].
  - cbn. field. exact Hx.
  - cbn [repeat app npv_aux pow]. rewrite IH. field.
    split; [apply pow_nonzero; exact Hx | exact Hx].
Qed.

(** Present value of the stage's series. *)
Lemma npv_fluxo_caixa (T L r : R) (H : Z) :
  (1 <= H)%Z -> 1 + r <> 0 ->
  npv r (fluxo_caixa T L H) = - T + (T + L) / (1 + r) ^ Z.to_nat H.
Proof.
  intros HH Hx. unfold npv, fluxo_caixa. cbn [app npv_aux].
  rewrite npv_aux_zeros by exact Hx.
  replace (Z.to_nat H) with (S (Z.to_nat (H - 1))) by lia.
  cbn [pow]. field. split; [apply pow_nonzero; exact Hx | exact Hx].
Qed.

(** X18: a rate that brings the present value of the stage's series to zero
    satisfies [T * (1 + r)^H = T + L]; so for a holding period of twelve
    months and a solver that returns such a rate, the annualized rate is
    the ROE. *)
Theorem tir_exata_e_roe (npf_irr : list R -> resultado_irr) (L custo T r : R) (H : Z) :
  (1 <= H)%Z -> 1 + r <> 0 -> T <> 0 ->
  npf_irr (fluxo_caixa T L H) = Retorna (Some (Num r)) ->
  npv r (fluxo_caixa T L H) = 0 ->
  T * (1 + r) ^ Z.to_nat H = T + L
  /\ (H = 12%Z ->
      exists m,
        calcular_metricas_financeiras npf_irr L custo T H = Ok m
        /\ roe m = Some (L / T * 100)
        /\ tir_anual m = Some (Num (L / T * 100))).
Proof.
  intros HH Hx HT E Hnpv.
  rewrite npv_fluxo_caixa in Hnpv by assumption.
  assert (Hp : (1 + r) ^ Z.to_nat H <> 0) by (apply pow_nonzero; exact Hx).
  assert (Heq : T * (1 + r) ^ Z.to_nat H = T + L).
  { assert (Hq : (T + L) / (1 + r) ^ Z.to_nat H = T) by lra.
    rewrite <- Hq at 1. field. exact Hp. }
  split; [exact Heq |].
  intros ->.
  destruct (metricas_tir_devolvida npf_irr L custo T 12 (Num r) E) as (m & Hm & Ht).
  exists m. split; [exact Hm |].
  destruct (metricas_roi_roe npf_irr L custo T 12 m Hm) as (_ & _ & _ & Hroe).
  split; [apply Hroe; exact HT |].
  rewrite Ht. cbn [anualizar]. do 2 f_equal.
  change (Z.to_nat 12) with 12%nat in Heq.
  assert (Hq : (1 + r) ^ 12 = (T + L) / T).
  { rewrite <- Heq. field. exact HT. }
  rewrite Hq. field. exact HT.
Qed.

(** ** The main computation *)

Section SimulacaoExtras.

Variable npf_pmt : R -> Z -> R -> R.
Variable npf_fv : R -> Z -> R -> R -> R.
Variable npf_irr : list R -> resultado_irr.

(** Own capital, balance and interest as the later stages see them. *)
Lemma simular_capital (e : Entradas) :
  let s := simular npf_pmt npf_fv npf_irr e in
  capital_proprio_investido (estrutura_capital s)
  + valor_financiado (estrutura_capital s)
  = custo_total_ativo (custos_aquisicao s)
  /\ saldo_devedor (custos_financ s)
     = valor_financiado (estrutura_capital s) - amortizacao_no_giro (custos_financ s)
  /\ juros_pagos_no_giro (custos_financ s)
     = total_prestacoes_pagas (custos_financ s) - amortizacao_no_giro (custos_financ s).
Proof.
  intros s. subst s. unfold simular.
  cbn [estrutura_capital custos_aquisicao custos_financ].
  set (ca := calcular_custos_aquisicao (lance e) (taxa_leiloeiro_pct e) (reforma_extras e)).
  destruct (considerar_juros e); cbn [negb].
  - set (ec := calcular_estrutura_capital (lance e) (entrada_pct e) (total_taxas ca)
                 (comissao_leiloeiro ca) (reforma_extras e)).
    split; [subst ec ca; cbn; lra |].
    set (F := valor_financiado ec).
    destruct (Req_dec_T F 0) as [EF | HF].
    + rewrite EF, financiamento_sem_valor. cbn. split; lra.
    + rewrite financiamento_com_juros by exact HF. cbn. split; lra.
  - rewrite financiamento_sem_juros. subst ca. cbn. repeat split; lra.
Qed.

(** X19: the gross profit of the main computation is the resale price less
    the sale commission, the seller's transfer costs, the total asset cost
    and the interest, plus the principal amortized during the holding
    period. *)
Theorem lucro_bruto_da_simulacao (e : Entradas) :
  let s := simular npf_pmt npf_fv npf_irr e in
  lucro_bruto (lucros s)
  = revenda e - comissao_venda (lucros s)
    - custos_transferencia_vendedor (lucros s)
    - custo_total_ativo (custos_aquisicao s)
    - juros_pagos_no_giro (custos_financ s)
    + amortizacao_no_giro (custos_financ s).
Proof.
  intros s.
  destruct (simular_capital e) as (Hc & Hs & _). fold s in Hc, Hs.
  assert (Hl : lucros s
               = calcular_lucros (revenda e)
                   (capital_proprio_investido (estrutura_capital s))
                   (saldo_devedor (custos_financ s))
                   (juros_pagos_no_giro (custos_financ s))
                   (quem_paga_custos_venda e)) by reflexivity.
  destruct (calcular_lucros_contas (revenda e)
              (capital_proprio_investido (estrutura_capital s))
              (saldo_devedor (custos_financ s))
              (juros_pagos_no_giro (custos_financ s))
              (quem_paga_custos_venda e)) as (Hb & _ & _ & _ & Hr).
  cbv zeta in Hb, Hr. rewrite <- Hl in Hb, Hr.
  rewrite Hb, Hr. lra.
Qed.

(** X20: the last entry of the series handed to the solver, the total
    invested plus the net profit, is the net sale proceeds less the tax;
    and the total invested is the total asset cost less the financed amount
    plus the interest. *)
Theorem entrada_final_do_fluxo (e : Entradas) :
  let s := simular npf_pmt npf_fv npf_irr e in
  total_investido s + lucro_liquido (lucros s)
  = receita_liquida_venda (lucros s) - ir_gcap (lucros s)
  /\ total_investido s
     = custo_total_ativo (custos_aquisicao s)
       - valor_financiado (estrutura_capital s)
       + juros_pagos_no_giro (custos_financ s)
  /\ metricas s
     = calcular_metricas_financeiras npf_irr (lucro_liquido (lucros s))
         (custo_total_ativo (custos_aquisicao s)) (total_investido s) (meses e).
Proof.
  intros s.
  destruct (simular_capital e) as (Hc & _ & _). fold s in Hc.
  assert (Hl : lucros s
               = calcular_lucros (revenda e)
                   (capital_proprio_investido (estrutura_capital s))
                   (saldo_devedor (custos_financ s))
                   (juros_pagos_no_giro (custos_financ s))
                   (quem_paga_custos_venda e)) by reflexivity.
  assert (Ht : total_investido s
               = capital_proprio_investido (estrutura_capital s)
                 + juros_pagos_no_giro (custos_financ s)) by reflexivity.
  destruct (calcular_lucros_contas (revenda e)
              (capital_proprio_investido (estrutura_capital s))
              (saldo_devedor (custos_financ s))
              (juros_pagos_no_giro (custos_financ s))
              (quem_paga_custos_venda e)) as (Hb & _ & Hll & _).
  cbv zeta in Hb, Hll. rewrite <- Hl in Hb, Hll.
  split; [rewrite Hll, Hb, Ht; lra | split; [rewrite Ht; lra | reflexivity]].
Qed.

(** X21: with interest not considered, the down-payment fraction, the
    interest rate and the loan term have no effect: two inputs that agree
    on everything else give the same results. *)
Theorem sem_juros_ignora_financiamento (e e' : Entradas) :
  considerar_juros e = false -> considerar_juros e' = false ->
  lance e = lance e' -> revenda e = revenda e' -> meses e = meses e' ->
  taxa_leiloeiro_pct e = taxa_leiloeiro_pct e' ->
  reforma_extras e = reforma_extras e' ->
  quem_paga_custos_venda e = quem_paga_custos_venda e' ->
  simular npf_pmt npf_fv npf_irr e = simular npf_pmt npf_fv npf_irr e'.
Proof.
  intros Hc Hc' Hl Hr Hm Ht Hx Hq. unfold simular.
  rewrite Hc, Hc', Hl, Hr, Hm, Ht, Hx, Hq. cbn [negb].
  rewrite !financiamento_sem_juros. reflexivity.
Qed.

(** X22: behind the gate and for widget values within their ranges, the
    page computes exactly when the bid is positive; the checks of the
    holding period and of the down-payment percentage cannot fail. *)
Theorem pagina_calcula (st : session_state) (w : Widgets) :
  verificar_senha st = true -> widgets_nos_limites w ->
  (0 < w_lance w ->
   pagina npf_pmt npf_fv npf_irr st w
   = Some (simular npf_pmt npf_fv npf_irr (entradas_da_pagina w)))
  /\ (w_lance w <= 0 -> pagina npf_pmt npf_fv npf_irr st w = None).
Proof.
  intros Hs (Hm & _ & He & _ & _). unfold pagina. rewrite Hs. cbn [negb].
  destruct (validar_inputs (lance (entradas_da_pagina w)) (revenda (entradas_da_pagina w))
              (meses (entradas_da_pagina w)) (entrada_pct (entradas_da_pagina w) * 100))
    as [valido mensagem] eqn:Ev.
  assert (Hv : valido = true <-> 0 < w_lance w).
  { replace valido with (fst (validar_inputs (lance (entradas_da_pagina w))
        (revenda (entradas_da_pagina w)) (meses (entradas_da_pagina w))
        (entrada_pct (entradas_da_pagina w) * 100))) by (rewrite Ev; reflexivity).
    rewrite validar_inputs_caracterizacao. cbn [lance meses entrada_pct entradas_da_pagina].
    assert (0 <= IZR (w_entrada w) <= 100) by (split; apply IZR_le; lia).
    split; [intros (? & _); assumption | intros; repeat split; (lra || lia)]. }
  split; intros Hl.
  - rewrite (proj2 Hv Hl). reflexivity.
  - destruct valido; [| reflexivity]. exfalso. assert (0 < w_lance w) by (apply Hv; reflexivity). lra.
Qed.

End SimulacaoExtras.

(** ** Currency text and tables *)

Lemma prefix_vazio (s : string) : String.prefix EmptyString s = true.
Proof. destruct s; reflexivity. Qed.

(** One step of a replacement whose pattern is a single character. *)
Lemma str_replace_char (a : ascii) (new : string) (c : ascii) (s : string) :
  str_replace (String a EmptyString) new (String c s)
  = if ascii_dec a c then (new ++ str_replace (String a EmptyString) new s)%string
    else String c (str_replace (String a EmptyString) new s).
Proof.
  unfold str_replace. cbn [replace_aux String.prefix].
  destruct (ascii_dec a c); [rewrite prefix_vazio |]; reflexivity.
Qed.

Lemma str_replace_temp_outro (c : ascii) (s : string) :
  c <> "t"%char ->
  str_replace "temp" "." (String c s) = String c (str_replace "temp" "." s).
Proof.
  intros Hc. unfold str_replace. cbn [replace_aux String.prefix].
  destruct (ascii_dec "t" c) as [E | _]; [congruence | reflexivity].
Qed.

Lemma str_replace_temp_achado (s : string) :
  str_replace "temp" "." ("temp" ++ s)
  = String "."%char (str_replace "temp" "." s).
Proof.
  unfold str_replace. cbn [append replace_aux String.prefix].
  repeat (match goal with
          | |- context [ascii_dec ?a ?a] =>
              destruct (ascii_dec a a) as [_ | Hn]; [| contradiction Hn; reflexivity]
          end).
  rewrite prefix_vazio. reflexivity.
Qed.

(** The three replacements of the fallback exchange commas and dots in a
    text without the letter t. *)
Lemma tres_substituicoes_trocam (s : string) :
  sem_letra_t s = true ->
  str_replace "temp" "." (str_replace "." "," (str_replace "," "temp" s))
  = map_string troca_separador s.
Proof.
  induction s as [| c s IH]; [reflexivity |].
  cbn [sem_letra_t map_string]. intros Ht.
  apply andb_true_iff in Ht. destruct Ht as [Hc Hs]. specialize (IH Hs).
  apply negb_true_iff in Hc. apply Ascii.eqb_neq in Hc.
  rewrite (str_replace_char "," "temp" c s).
  unfold troca_separador.
  destruct (ascii_dec "," c) as [<- | Hv].
  - cbn [append]. rewrite !str_replace_char.
    repeat (match goal with
            | |- context [ascii_dec "."%char ?b] =>
                destruct (ascii_dec "."%char b) as [E | _]; [discriminate E |]
            end).
    change (String "t" (String "e" (String "m" (String "p" ?x))))
      with ("temp" ++ x)%string.
    rewrite str_replace_temp_achado, IH. reflexivity.
  - rewrite (proj2 (Ascii.eqb_neq c ",")) by congruence.
    rewrite str_replace_char.
    destruct (ascii_dec "." c) as [<- | Hp].
    + cbn [append Ascii.eqb]. rewrite str_replace_temp_outro by discriminate.
      rewrite IH. reflexivity.
    + rewrite (proj2 (Ascii.eqb_neq c ".")) by congruence.
      rewrite str_replace_temp_outro by exact Hc.
      rewrite IH. reflexivity.
Qed.

Section ApresentacaoExtras.

Variable locale_currency : R -> option string.
Variable formato_milhar_2f : R -> string.

(** X23: the text of the locale is returned as it is; when the locale
    fails, the fallback is ["R$ "] followed by the formatted number with
    commas and dots exchanged, provided the formatted number has no letter
    t (which the three replacements use as a marker). *)
Theorem formatar_moeda_troca_separadores (valor : R) :
  sem_letra_t (formato_milhar_2f valor) = true ->
  (forall s, locale_currency valor = Some s ->
             formatar_moeda locale_currency formato_milhar_2f valor = s)
  /\ (locale_currency valor = None ->
      formatar_moeda locale_currency formato_milhar_2f valor
      = ("R$ " ++ map_string troca_separador (formato_milhar_2f valor))%string).
Proof.
  intros Ht. unfold formatar_moeda. split.
  - intros s ->. reflexivity.
  - intros ->. rewrite tres_substituicoes_trocam; [reflexivity |].
    cbn. exact Ht.
Qed.

End ApresentacaoExtras.

Section TabelasExtras.

Variable npf_pmt : R -> Z -> R -> R.
Variable npf_fv : R -> Z -> R -> R -> R.
Variable npf_irr : list R -> resultado_irr.
Variable locale_currency : R -> option string.
Variable formato_milhar_2f : R -> string.

(** X24: the cost breakdown the page shows is always built (twelve
    categories, twelve amounts); its first seven amounts (bid, fees,
    commission, extras) add up to the total asset cost, and the resale
    price less all twelve amounts is the net profit less the financed
    amount and less the principal amortized: the rows account for the
    financed part of the bid both in the bid and in the loan payments. *)
Theorem detalhamento_da_pagina (e : Entradas) :
  let s := simular npf_pmt npf_fv npf_irr e in
  let valores :=
    valores_detalhamento (custos_aquisicao s) (reforma_extras e)
      (comissao_venda (lucros s)) (custos_transferencia_vendedor (lucros s))
      (ir_gcap (lucros s)) (saldo_devedor (custos_financ s))
      (total_prestacoes_pagas (custos_financ s)) (lance e) in
  criar_dataframe_detalhamento locale_currency formato_milhar_2f
    (custos_aquisicao s) (reforma_extras e)
    (comissao_venda (lucros s)) (custos_transferencia_vendedor (lucros s))
    (ir_gcap (lucros s)) (saldo_devedor (custos_financ s))
    (total_prestacoes_pagas (custos_financ s)) (lance e)
  = Some (combine categorias_detalhamento
            (map (formatar_moeda locale_currency formato_milhar_2f) valores))
  /\ fold_right Rplus 0 (firstn 7 valores) = custo_total_ativo (custos_aquisicao s)
  /\ revenda e - fold_right Rplus 0 valores
     = lucro_liquido (lucros s)
       - valor_financiado (estrutura_capital s)
       - amortizacao_no_giro (custos_financ s).
Proof.
  intros s valores.
  destruct (simular_capital npf_pmt npf_fv npf_irr e) as (Hc & Hs & Hj).
  fold s in Hc, Hs, Hj.
  assert (Hl : lucros s
               = calcular_lucros (revenda e)
                   (capital_proprio_investido (estrutura_capital s))
                   (saldo_devedor (custos_financ s))
                   (juros_pagos_no_giro (custos_financ s))
                   (quem_paga_custos_venda e)) by reflexivity.
  destruct (calcular_lucros_contas (revenda e)
              (capital_proprio_investido (estrutura_capital s))
              (saldo_devedor (custos_financ s))
              (juros_pagos_no_giro (custos_financ s))
              (quem_paga_custos_venda e)) as (Hb & _ & Hll & _ & Hr).
  cbv zeta in Hb, Hll, Hr. rewrite <- Hl in Hb, Hll, Hr.
  assert (Hca : custo_total_ativo (custos_aquisicao s)
                = lance e + itbi (custos_aquisicao s) + escritura (custos_aquisicao s)
                  + fundos (custos_aquisicao s) + registro (custos_aquisicao s)
                  + comissao_leiloeiro (custos_aquisicao s) + reforma_extras e).
  { subst s. cbn. lra. }
  split; [reflexivity |].
  subst valores. unfold valores_detalhamento. cbn [firstn fold_right].
  split; [lra |].
  rewrite Hll, Hb, Hr. lra.
Qed.

(** X25: the cash-flow statement is always built (sixteen descriptions,
    sixteen texts), and with the arguments the page passes its amounts are
    consistent: the total received is the net sale proceeds, the total
    invested is the total handed to the return metrics, their difference is
    the gross profit, and the gross profit less the tax is the net
    profit. *)
Theorem demonstrativo_da_pagina (e : Entradas) :
  let s := simular npf_pmt npf_fv npf_irr e in
  let quantias :=
    quantias_fluxo_caixa
      (capital_proprio_investido (estrutura_capital s))
      (juros_pagos_no_giro (custos_financ s)) (revenda e)
      (comissao_venda (lucros s)) (custos_transferencia_vendedor (lucros s))
      (saldo_devedor (custos_financ s)) (lucro_bruto (lucros s))
      (ir_gcap (lucros s)) (lucro_liquido (lucros s)) in
  criar_demonstrativo_fluxo_caixa locale_currency formato_milhar_2f
    (capital_proprio_investido (estrutura_capital s))
    (juros_pagos_no_giro (custos_financ s)) (revenda e)
    (comissao_venda (lucros s)) (custos_transferencia_vendedor (lucros s))
    (saldo_devedor (custos_financ s)) (lucro_bruto (lucros s))
    (ir_gcap (lucros s)) (lucro_liquido (lucros s))
  = Some (combine descricoes_fluxo_caixa
            (map (texto_quantia locale_currency formato_milhar_2f) quantias))
  /\ nth_error quantias 3 = Some (Some (total_investido s))
  /\ nth_error quantias 10 = Some (Some (receita_liquida_venda (lucros s)))
  /\ nth_error quantias 13
     = Some (Some (receita_liquida_venda (lucros s) - total_investido s))
  /\ nth_error quantias 15
     = Some (Some (receita_liquida_venda (lucros s) - total_investido s
                   - ir_gcap (lucros s))).
Proof.
  intros s quantias.
  assert (Hl : lucros s
               = calcular_lucros (revenda e)
                   (capital_proprio_investido (estrutura_capital s))
                   (saldo_devedor (custos_financ s))
                   (juros_pagos_no_giro (custos_financ s))
                   (quem_paga_custos_venda e)) by reflexivity.
  assert (Ht : total_investido s
               = capital_proprio_investido (estrutura_capital s)
                 + juros_pagos_no_giro (custos_financ s)) by reflexivity.
  destruct (calcular_lucros_contas (revenda e)
              (capital_proprio_investido (estrutura_capital s))
              (saldo_devedor (custos_financ s))
              (juros_pagos_no_giro (custos_financ s))
              (quem_paga_custos_venda e)) as (Hb & _ & Hll & _ & Hr).
  cbv zeta in Hb, Hll, Hr. rewrite <- Hl in Hb, Hll, Hr.
  subst quantias. unfold quantias_fluxo_caixa. cbn [nth_error].
  split; [reflexivity |].
  repeat split; do 2 f_equal; lra.
Qed.

End TabelasExtras.

(** ** The access gate *)

(** X26: entering the right password opens the gate and removes the
    password from the session; every other key is left as it was. *)
Theorem senha_correta_abre (st : session_state) :
  st "password"%string = Some (VStr "investimento") ->
  exists st',
    password_entered st = Some st'
    /\ verificar_senha st' = true
    /\ st' "password"%string = None
    /\ (forall k, k <> "password"%string -> k <> "password_correct"%string ->
                  st' k = st k).
Proof.
  intros Hp. unfold password_entered. rewrite Hp. cbn [valor_igual_str String.eqb Ascii.eqb Bool.eqb].
  eexists. split; [reflexivity |]. repeat split.
  intros k Hk1 Hk2. unfold sessao_del, sessao_set.
  destruct (String.eqb_spec "password" k); [congruence |].
  destruct (String.eqb_spec "password_correct" k); [congruence | reflexivity].
Qed.

(** X27: entering any other text keeps the gate closed, and that text stays
    in the session under the key ["password"]. *)
Theorem senha_errada_fecha (st : session_state) (digitado : string) :
  st "password"%string = Some (VStr digitado) ->
  digitado <> "investimento"%string ->
  exists st',
    password_entered st = Some st'
    /\ verificar_senha st' = false
    /\ st' "password"%string = Some (VStr digitado)
    /\ st' "password_correct"%string = Some (VBool false).
Proof.
  intros Hp Hd. unfold password_entered. rewrite Hp. cbn [valor_igual_str].
  destruct (String.eqb_spec digitado "investimento"); [contradiction |].
  eexists. split; [reflexivity |]. repeat split.
  unfold sessao_set. cbn. exact Hp.
Qed.

(** X28: after the callback has run, the gate is open exactly when the
    text entered was the password: no other text opens it, and a wrong
    text closes a gate that was open. *)
Theorem porta_so_abre_com_a_senha (st st' : session_state) :
  password_entered st = Some st' ->
  (verificar_senha st' = true
   <-> st "password"%string = Some (VStr "investimento")).
Proof.
  unfold password_entered.
  destruct (st "password"%string) as [v |] eqn:Hp; [| discriminate].
  destruct (valor_igual_str v "investimento") eqn:Hv; intros E; injection E as <-.
  - split; [intros _ | reflexivity].
    destruct v as [s | b]; [| discriminate Hv].
    cbn in Hv. apply String.eqb_eq in Hv. subst s. reflexivity.
  - split; [discriminate |].
    intros E. injection E as ->. discriminate Hv.
Qed.

(** ** The further properties at concrete inputs *)

Lemma validar_inputs_aviso_witness :
  fst (validar_inputs 87000 80000 6 20) = true
  /\ snd (validar_inputs 87000 80000 6 20)
     = "Atenção: O valor de revenda é menor que o valor de arremate. Isso pode indicar prejuízo."%string.
Proof.
  assert (Hv : fst (validar_inputs 87000 80000 6 20) = true).
  { apply validar_inputs_caracterizacao. repeat split; (lra || lia). }
  split; [exact Hv |].
  apply (proj2 (validar_inputs_aviso 87000 80000 6 20 Hv)). lra.
Defined.

Lemma custo_total_ativo_composicao_witness :
  0 < 87000 /\ 0 <= 5 / 100 /\ 0 <= 12000
  /\ custo_total_ativo (calcular_custos_aquisicao 87000 (5 / 100) 12000)
     = 87000 * (111 / 100 + 5 / 100) + 12000.
Proof.
  assert (H1 : 0 < 87000) by lra.
  assert (H2 : 0 <= 5 / 100) by lra.
  assert (H3 : 0 <= 12000) by lra.
  split; [exact H1 | split; [exact H2 | split; [exact H3 |]]].
  exact (proj1 (proj2 (custo_total_ativo_composicao 87000 (5 / 100) 12000 H1 H2 H3))).
Defined.

Lemma entrada_e_financiado_limites_witness :
  0 <= 87000 /\ 0 <= 20 / 100 <= 1
  /\ 0 <= valor_financiado (calcular_estrutura_capital 87000 (20 / 100) 9570 0 12000)
     <= 87000.
Proof.
  assert (H1 : 0 <= 87000) by lra.
  assert (H2 : 0 <= 20 / 100 <= 1) by lra.
  split; [exact H1 | split; [exact H2 |]].
  exact (proj2 (entrada_e_financiado_limites 87000 (20 / 100) 9570 0 12000 H1 H2)).
Defined.

Lemma lucro_liquido_monotono_witness :
  150000 <= 160000 /\ 30000 <= 30000 /\ 60000 <= 60000 /\ 4000 <= 4000
  /\ lucro_liquido (calcular_lucros 150000 30000 60000 4000 "Vendedor")
     <= lucro_liquido (calcular_lucros 160000 30000 60000 4000 "Vendedor").
Proof.
  assert (H1 : 150000 <= 160000) by lra.
  assert (H2 : 30000 <= 30000) by lra.
  assert (H3 : 60000 <= 60000) by lra.
  assert (H4 : 4000 <= 4000) by lra.
  repeat (split; [assumption |]).
  exact (lucro_liquido_monotono 150000 160000 30000 30000 60000 60000 4000 4000
           "Vendedor" H1 H2 H3 H4).
Defined.

Lemma saldo_devedor_dentro_do_prazo_witness :
  0 < 69600 /\ 0 <= 12 / 100 /\ (0 < 120)%Z /\ (0 <= 6 <= 120)%Z
  /\ 0 <= saldo_devedor
            (calcular_custos_financiamento NumpyFinancial.pmt NumpyFinancial.fv
               69600 (12 / 100) 120 6 true) <= 69600.
Proof.
  assert (H1 : 0 < 69600) by lra.
  assert (H2 : 0 <= 12 / 100) by lra.
  assert (H3 : (0 < 120)%Z) by lia.
  assert (H4 : (0 <= 6 <= 120)%Z) by lia.
  repeat (split; [assumption |]).
  exact (proj1 (proj2 (saldo_devedor_dentro_do_prazo 69600 (12 / 100) 120 H1 H2 H3 6 H4))).
Defined.

Lemma saldo_devedor_apos_prazo_witness :
  0 < 1200 /\ 0 <= 0 /\ (0 < 12)%Z /\ (12 <= 18)%Z
  /\ juros_pagos_no_giro
       (calcular_custos_financiamento NumpyFinancial.pmt NumpyFinancial.fv
          1200 0 12 18 true) = 1200 * (IZR 18 - IZR 12) / IZR 12.
Proof.
  assert (H1 : 0 < 1200) by lra.
  assert (H2 : 0 <= 0) by lra.
  assert (H3 : (0 < 12)%Z) by lia.
  assert (H4 : (12 <= 18)%Z) by lia.
  repeat (split; [assumption |]).
  destruct (saldo_devedor_apos_prazo 1200 0 12 H1 H2 H3 18 H4) as (_ & _ & _ & Hj).
  exact (Hj eq_refl).
Defined.

Lemma saldo_devedor_decrescente_witness :
  0 < 69600 /\ 0 <= 12 / 100 /\ (0 < 120)%Z /\ (6 <= 12)%Z
  /\ saldo_devedor
       (calcular_custos_financiamento NumpyFinancial.pmt NumpyFinancial.fv
          69600 (12 / 100) 120 12 true)
     <= saldo_devedor
          (calcular_custos_financiamento NumpyFinancial.pmt NumpyFinancial.fv
             69600 (12 / 100) 120 6 true).
Proof.
  assert (H1 : 0 < 69600) by lra.
  assert (H2 : 0 <= 12 / 100) by lra.
  assert (H3 : (0 < 120)%Z) by lia.
  assert (H4 : (6 <= 12)%Z) by lia.
  repeat (split; [assumption |]).
  exact (saldo_devedor_decrescente 69600 (12 / 100) 120 H1 H2 H3 6 12 H4).
Defined.

Lemma juros_nao_negativos_witness :
  0 < 69600 /\ 0 <= 12 / 100 /\ (0 < 120)%Z /\ (0 <= 6)%Z
  /\ 0 <= juros_pagos_no_giro
            (calcular_custos_financiamento NumpyFinancial.pmt NumpyFinancial.fv
               69600 (12 / 100) 120 6 true).
Proof.
  assert (H1 : 0 < 69600) by lra.
  assert (H2 : 0 <= 12 / 100) by lra.
  assert (H3 : (0 < 120)%Z) by lia.
  assert (H4 : (0 <= 6)%Z) by lia.
  repeat (split; [assumption |]).
  exact (proj1 (juros_nao_negativos 69600 (12 / 100) 120 H1 H2 H3 6 H4)).
Defined.

Lemma fluxo_caixa_periodo_curto_witness :
  (0 <= 1)%Z /\ fluxo_caixa 100 50 0 = [- 100; 100 + 50].
Proof.
  assert (H0 : (0 <= 1)%Z) by lia.
  split; [exact H0 | exact (fluxo_caixa_periodo_curto 100 50 0 H0)].
Defined.

Lemma tir_anual_limites_witness :
  irr_taxa (1 / 100) (fluxo_caixa 100 50 6) = Retorna (Some (Num (1 / 100)))
  /\ exists m a,
       calcular_metricas_financeiras (irr_taxa (1 / 100)) 50 120 100 6 = Ok m
       /\ tir_anual m = Some (Num a) /\ -100 <= a.
Proof.
  assert (E : irr_taxa (1 / 100) (fluxo_caixa 100 50 6)
              = Retorna (Some (Num (1 / 100)))) by reflexivity.
  split; [exact E |].
  destruct (tir_anual_limites (irr_taxa (1 / 100)) 50 120 100 6 (1 / 100) E)
    as (m & a & Hm & Ht & _ & Ha & _).
  exists m, a. repeat split; assumption.
Defined.

Lemma tir_exata_e_roe_witness :
  (1 <= 12)%Z /\ 1 + 0 <> 0 /\ 100 <> 0
  /\ irr_taxa 0 (fluxo_caixa 100 0 12) = Retorna (Some (Num 0))
  /\ npv 0 (fluxo_caixa 100 0 12) = 0
  /\ 100 * (1 + 0) ^ Z.to_nat 12 = 100 + 0.
Proof.
  assert (H1 : (1 <= 12)%Z) by lia.
  assert (H2 : 1 + 0 <> 0) by lra.
  assert (H3 : 100 <> 0) by lra.
  assert (H4 : irr_taxa 0 (fluxo_caixa 100 0 12) = Retorna (Some (Num 0))) by reflexivity.
  assert (H5 : npv 0 (fluxo_caixa 100 0 12) = 0).
  { rewrite npv_fluxo_caixa by assumption.
    replace (1 + 0) with 1 by lra. rewrite pow1. lra. }
  repeat (split; [assumption |]).
  exact (proj1 (tir_exata_e_roe (irr_taxa 0) 0 120 100 0 12 H1 H2 H3 H4 H5)).
Defined.

Lemma sem_juros_ignora_financiamento_witness :
  considerar_juros cenario_a_vista = false
  /\ considerar_juros cenario_a_vista' = false
  /\ simular NumpyFinancial.pmt NumpyFinancial.fv irr_nan cenario_a_vista
     = simular NumpyFinancial.pmt NumpyFinancial.fv irr_nan cenario_a_vista'.
Proof.
  split; [reflexivity | split; [reflexivity |]].
  exact (sem_juros_ignora_financiamento NumpyFinancial.pmt NumpyFinancial.fv irr_nan
           cenario_a_vista cenario_a_vista'
           eq_refl eq_refl eq_refl eq_refl eq_refl eq_refl eq_refl eq_refl).
Defined.

Lemma widgets_padrao_nos_limites : widgets_nos_limites widgets_padrao.
Proof.
  unfold widgets_nos_limites, widgets_padrao. cbn.
  repeat split; try lia; try lra.
Defined.

Lemma pagina_calcula_witness :
  verificar_senha sessao_aberta = true
  /\ widgets_nos_limites widgets_padrao
  /\ pagina NumpyFinancial.pmt NumpyFinancial.fv irr_nan sessao_aberta widgets_padrao
     = Some (simular NumpyFinancial.pmt NumpyFinancial.fv irr_nan
               (entradas_da_pagina widgets_padrao)).
Proof.
  assert (Hs : verificar_senha sessao_aberta = true) by reflexivity.
  split; [exact Hs | split; [exact widgets_padrao_nos_limites |]].
  apply (proj1 (pagina_calcula NumpyFinancial.pmt NumpyFinancial.fv irr_nan
                  sessao_aberta widgets_padrao Hs widgets_padrao_nos_limites)).
  cbn. lra.
Defined.

Lemma formatar_moeda_troca_separadores_witness :
  sem_letra_t (formato_exemplo 1234.56) = true
  /\ formatar_moeda locale_indisponivel formato_exemplo 1234.56
     = "R$ 1.234,56"%string.
Proof.
  assert (Ht : sem_letra_t (formato_exemplo 1234.56) = true) by reflexivity.
  split; [exact Ht |].
  exact (proj2 (formatar_moeda_troca_separadores locale_indisponivel formato_exemplo
                  1234.56 Ht) eq_refl).
Defined.

Lemma senha_correta_abre_witness :
  sessao_set "password" (VStr "investimento") sessao_vazia "password"%string
  = Some (VStr "investimento")
  /\ exists st',
       password_entered (sessao_set "password" (VStr "investimento") sessao_vazia)
       = Some st'
       /\ verificar_senha st' = true
       /\ st' "password"%string = None.
Proof.
  assert (Hp : sessao_set "password" (VStr "investimento") sessao_vazia
                 "password"%string = Some (VStr "investimento")) by reflexivity.
  split; [exact Hp |].
  destruct (senha_correta_abre _ Hp) as (st' & H1 & H2 & H3 & _).
  exists st'. repeat split; assumption.
Defined.

Lemma senha_errada_fecha_witness :
  sessao_set "password" (VStr "1234") sessao_vazia "password"%string
  = Some (VStr "1234")
  /\ "1234"%string <> "investimento"%string
  /\ exists st',
       password_entered (sessao_set "password" (VStr "1234") sessao_vazia) = Some st'
       /\ verificar_senha st' = false
       /\ st' "password"%string = Some (VStr "1234").
Proof.
  assert (Hp : sessao_set "password" (VStr "1234") sessao_vazia "password"%string
               = Some (VStr "1234")) by reflexivity.
  assert (Hd : "1234"%string <> "investimento"%string) by discriminate.
  split; [exact Hp | split; [exact Hd |]].
  destruct (senha_errada_fecha _ "1234" Hp Hd) as (st' & H1 & H2 & H3 & _).
  exists st'. repeat split; assumption.
Defined.

Lemma porta_so_abre_com_a_senha_witness :
  password_entered (sessao_set "password" (VStr "1234") sessao_aberta)
  = Some (sessao_set "password_correct" (VBool false)
            (sessao_set "password" (VStr "1234") sessao_aberta))
  /\ verificar_senha sessao_aberta = true
  /\ verificar_senha
       (sessao_set "password_correct" (VBool false)
          (sessao_set "password" (VStr "1234") sessao_aberta)) <> true.
Proof.
  assert (He : password_entered (sessao_set "password" (VStr "1234") sessao_aberta)
               = Some (sessao_set "password_correct" (VBool false)
                         (sessao_set "password" (VStr "1234") sessao_aberta)))
    by reflexivity.
  split; [exact He | split; [reflexivity |]].
  intros Ho. apply (porta_so_abre_com_a_senha _ _ He) in Ho. discriminate Ho.
Defined.
